(** * USB-Shield: the state-synchronisation controller of [App]

    A shallow embedding of the React component [App] (the controller that
    mirrors the backend's USB devices, trusted pairs and autoblock policy)
    together with the part of the JavaScript run time its behaviour depends
    on: promises, [await], [try]/[catch]/[finally], [Promise.all], and the
    order in which replies of the backend arrive. *)

From Stdlib Require Import String List ZArith Bool Arith Lia Permutation.
From Stdlib Require Hexadecimal HexadecimalFacts HexadecimalPos HexadecimalZ
  HexadecimalString.
Import ListNotations.
Open Scope string_scope.

Set Implicit Arguments.

(** ** JavaScript values that are thrown or rejected with *)

(** What a rejected promise carries.  The component only asks two things of
    such a value: whether it is an instance of [Error] (and then reads its
    [message]), and its conversion [String(err)].  A value that is not an
    [Error] is given by that conversion; the string a Tauri command rejects
    with is [NonError s], whose conversion is [s] itself. *)
Inductive JsValue : Type :=
| ErrorInstance (name message : string)
| NonError (repr : string).

(** [String(err)]: for an [Error], [Error.prototype.toString] joins the name
    and the message, and drops whichever is empty. *)
Definition js_String (err : JsValue) : string :=
  match err with
  | ErrorInstance name message =>
      if String.eqb name "" then message
      else if String.eqb message "" then name
      else name ++ ": " ++ message
  | NonError repr => repr
  end.

(** The outcome of a settled promise. *)
Inductive Result (A : Type) : Type :=
| Ok (a : A)
| Err (e : JsValue).
Arguments Ok {A} a.
Arguments Err {A} e.

(** ** types.ts *)

Record UsbDeviceInfo : Type := {
  vendor_id : Z;
  product_id : Z;
  manufacturer : option string;
  product : option string;
  serial_number : option string;
  port_number : option Z;
  connected : bool;
  trusted : bool
}.

(** [[vendor_id, product_id]] *)
Definition TrustedDevice : Type := (Z * Z)%type.

(** ** The component's state: one [useState] cell per field *)

Inductive BlockStatus : Type := idle | blocking | unblocking.

Record Store : Type := {
  devices : list UsbDeviceInfo;
  trustedDevices : list TrustedDevice;
  autoblockEnabled : bool;
  error : option string;
  isLoading : bool;
  blockStatus : BlockStatus
}.

(** The arguments of the six [useState] calls. *)
Definition initial_store : Store := {|
  devices := [];
  trustedDevices := [];
  autoblockEnabled := true;
  error := None;
  isLoading := true;
  blockStatus := idle
|}.

(** A call of one of the six state setters, always with a plain value (the
    component never passes an updater function). *)
Inductive Setter : Type :=
| setDevices (v : list UsbDeviceInfo)
| setTrustedDevices (v : list TrustedDevice)
| setAutoblockEnabled (v : bool)
| setError (v : option string)
| setIsLoading (v : bool)
| setBlockStatus (v : BlockStatus).

(** Setter calls are applied in the order they are made, each replacing its
    own cell. *)
Definition apply_setter (w : Setter) (s : Store) : Store :=
  match w with
  | setDevices v =>
      {| devices := v; trustedDevices := trustedDevices s;
         autoblockEnabled := autoblockEnabled s; error := error s;
         isLoading := isLoading s; blockStatus := blockStatus s |}
  | setTrustedDevices v =>
      {| devices := devices s; trustedDevices := v;
         autoblockEnabled := autoblockEnabled s; error := error s;
         isLoading := isLoading s; blockStatus := blockStatus s |}
  | setAutoblockEnabled v =>
      {| devices := devices s; trustedDevices := trustedDevices s;
         autoblockEnabled := v; error := error s;
         isLoading := isLoading s; blockStatus := blockStatus s |}
  | setError v =>
      {| devices := devices s; trustedDevices := trustedDevices s;
         autoblockEnabled := autoblockEnabled s; error := v;
         isLoading := isLoading s; blockStatus := blockStatus s |}
  | setIsLoading v =>
      {| devices := devices s; trustedDevices := trustedDevices s;
         autoblockEnabled := autoblockEnabled s; error := error s;
         isLoading := v; blockStatus := blockStatus s |}
  | setBlockStatus v =>
      {| devices := devices s; trustedDevices := trustedDevices s;
         autoblockEnabled := autoblockEnabled s; error := error s;
         isLoading := isLoading s; blockStatus := v |}
  end.

(** ** The command gateway *)

(** The commands the component passes to [invoke], with their arguments. *)
Inductive Command : Type :=
| get_usb_devices
| get_trusted_devices
| get_autoblock_mode
| add_trusted_device (vendorId productId : Z)
| remove_trusted_device (vendorId productId : Z)
| set_autoblock_mode (enabled : bool)
| block_all_usb_ports
| restart_usb_service
| unblock_usb_port.

(** The type argument of each [invoke<T>] (none given: the result is not
    used). *)
Definition payload (c : Command) : Type :=
  match c with
  | get_usb_devices => list UsbDeviceInfo
  | get_trusted_devices => list TrustedDevice
  | get_autoblock_mode => bool
  | _ => unit
  end.

(** The function [listen] resolves with; [n] names the subscription. *)
Inductive UnlistenFn : Type := Unlisten (n : nat).

(** ** Asynchronous functions *)

(** The body of an [async] function, as the tree of what it does next:
    return, throw, call a state setter, await a command of the gateway,
    await [listen], or await [Promise.all] of the promises of other
    asynchronous calls.  An awaited call hands its outcome to the
    continuation, so that [try]/[catch] can be defined on the tree. *)
#[warnings="-register-all"]
Inductive Task (A : Type) : Type :=
| Ret (a : A)
| Throw (e : JsValue)
| Do (w : Setter) (k : Task A)
| Invoke (c : Command) (k : Result (payload c) -> Task A)
| Listen (event : string) (handler : Task unit)
    (k : Result UnlistenFn -> Task A)
| All (ts : list (Task unit)) (k : Result unit -> Task A).
Arguments Ret {A} a.
Arguments Throw {A} e.
Arguments Do {A} w k.
Arguments Invoke {A} c k.
Arguments Listen {A} event handler k.
Arguments All {A} ts k.

(** Sequencing: a throw skips the rest. *)
Fixpoint bind {A B : Type} (t : Task A) (f : A -> Task B) : Task B :=
  match t with
  | Ret a => f a
  | Throw e => Throw e
  | Do w k => Do w (bind k f)
  | Invoke c k => Invoke c (fun r => bind (k r) f)
  | Listen ev h k => Listen ev h (fun r => bind (k r) f)
  | All ts k => All ts (fun r => bind (k r) f)
  end.

(** [try { t } catch (err) { h err }] *)
Fixpoint try_catch {A : Type} (t : Task A) (h : JsValue -> Task A) : Task A :=
  match t with
  | Ret a => Ret a
  | Throw e => h e
  | Do w k => Do w (try_catch k h)
  | Invoke c k => Invoke c (fun r => try_catch (k r) h)
  | Listen ev hd k => Listen ev hd (fun r => try_catch (k r) h)
  | All ts k => All ts (fun r => try_catch (k r) h)
  end.

(** [try { t } finally { f }]: [f] runs on both exits, and the exit of [t]
    stands unless [f] throws. *)
Fixpoint try_finally {A : Type} (t : Task A) (f : Task unit) : Task A :=
  match t with
  | Ret a => bind f (fun _ => Ret a)
  | Throw e => bind f (fun _ => Throw e)
  | Do w k => Do w (try_finally k f)
  | Invoke c k => Invoke c (fun r => try_finally (k r) f)
  | Listen ev hd k => Listen ev hd (fun r => try_finally (k r) f)
  | All ts k => All ts (fun r => try_finally (k r) f)
  end.

(** A rejected awaited promise throws at the [await]. *)
Definition rethrow {A : Type} (r : Result A) : Task A :=
  match r with
  | Ok a => Ret a
  | Err e => Throw e
  end.

Definition set (w : Setter) : Task unit := Do w (Ret tt).
Definition invoke (c : Command) : Task (payload c) := Invoke c rethrow.
Definition listen (event : string) (handler : Task unit) : Task UnlistenFn :=
  Listen event handler rethrow.
Definition Promise_all (ts : list (Task unit)) : Task unit := All ts rethrow.

Declare Scope task_scope.
Delimit Scope task_scope with task.
Bind Scope task_scope with Task.
Notation "x <- t ;; k" := (bind t (fun x => k))
  (at level 61, t at next level, right associativity) : task_scope.
Notation "t ;; k" := (bind t (fun _ => k))
  (at level 61, right associativity) : task_scope.
Notation "'try' t 'catch' h" := (try_catch t h)
  (at level 62, t at level 61, h at level 61) : task_scope.
Notation "t 'finally' f" := (try_finally t f)
  (at level 63, f at level 61) : task_scope.
Open Scope task_scope.

(** ** The run time: calls in flight and the arrival of replies *)

(** What the component did, in order: setter calls, commands sent to the
    gateway and subscriptions asked of the event source (each numbered as
    it is issued), and the arrival of the reply to a numbered call. *)
Inductive Event : Type :=
| Wrote (w : Setter)
| Invoked (id : nat) (c : Command)
| Subscribing (id : nat) (event : string) (handler : Task unit)
| Replied (id : nat).

(** An asynchronous call that ran as far as it can without a reply: its
    promise is settled, or it is suspended at an [await] of a call in
    flight, or at an [await] of [Promise.all] over such calls. *)
#[warnings="-register-all"]
Inductive Blocked (A : Type) : Type :=
| Settled (r : Result A)
| AwaitInvoke (id : nat) (c : Command) (k : Result (payload c) -> Task A)
| AwaitListen (id : nat) (event : string) (handler : Task unit)
    (k : Result UnlistenFn -> Task A)
| AwaitAll (bs : list (Blocked unit)) (k : Result unit -> Task A).
Arguments Settled {A} r.
Arguments AwaitInvoke {A} id c k.
Arguments AwaitListen {A} id event handler k.
Arguments AwaitAll {A} bs k.

(** The state setter calls act on, the log of events, the number of the next
    call, and the calls nobody awaits any more (the siblings of a rejected
    member of [Promise.all], which keep running). *)
Record Sys : Type := {
  store : Store;
  log : list Event;
  next : nat;
  background : list (Blocked unit)
}.

Definition boot (s : Store) : Sys :=
  {| store := s; log := []; next := 0; background := [] |}.

Definition write (w : Setter) (sy : Sys) : Sys :=
  {| store := apply_setter w (store sy); log := log sy ++ [Wrote w];
     next := next sy; background := background sy |}.

Definition issue (e : Event) (sy : Sys) : Sys :=
  {| store := store sy; log := log sy ++ [e];
     next := S (next sy); background := background sy |}.

Definition note (e : Event) (sy : Sys) : Sys :=
  {| store := store sy; log := log sy ++ [e];
     next := next sy; background := background sy |}.

Definition detach (bs : list (Blocked unit)) (sy : Sys) : Sys :=
  {| store := store sy; log := log sy;
     next := next sy; background := background sy ++ bs |}.

Definition is_settled {A : Type} (b : Blocked A) : bool :=
  match b with
  | Settled _ => true
  | _ => false
  end.

Definition rejection {A : Type} (b : Blocked A) : option JsValue :=
  match b with
  | Settled (Err e) => Some e
  | _ => None
  end.

Fixpoint first_rejection (bs : list (Blocked unit)) : option JsValue :=
  match bs with
  | [] => None
  | b :: bs' =>
      match rejection b with
      | Some e => Some e
      | None => first_rejection bs'
      end
  end.

(** The promise of [Promise.all]: rejected as soon as a member is, fulfilled
    once all members are, pending otherwise. *)
Definition join (bs : list (Blocked unit)) : option (Result unit) :=
  match first_rejection bs with
  | Some e => Some (Err e)
  | None => if forallb is_settled bs then Some (Ok tt) else None
  end.

Definition unsettled (bs : list (Blocked unit)) : list (Blocked unit) :=
  filter (fun b => negb (is_settled b)) bs.

(** Running a body until it returns, throws or suspends.  The members of a
    [Promise.all] are called one after the other, each running up to its
    first suspension, before the caller awaits them. *)
Fixpoint advance (A : Type) (t : Task A) (sy : Sys) {struct t}
  : Blocked A * Sys :=
  match t with
  | Ret a => (Settled (Ok a), sy)
  | Throw e => (Settled (Err e), sy)
  | Do w k => advance k (write w sy)
  | Invoke c k => (AwaitInvoke (next sy) c k, issue (Invoked (next sy) c) sy)
  | Listen ev h k =>
      (AwaitListen (next sy) ev h k, issue (Subscribing (next sy) ev h) sy)
  | All ts k =>
      let '(bs, sy1) :=
        (fix members (ts : list (Task unit)) (sy : Sys)
           : list (Blocked unit) * Sys :=
           match ts with
           | [] => ([], sy)
           | t :: ts' =>
               let '(b, sy') := advance t sy in
               let '(bs, sy'') := members ts' sy' in
               (b :: bs, sy'')
           end) ts sy in
      match join bs with
      | Some r => advance (k r) (detach (unsettled bs) sy1)
      | None => (AwaitAll bs k, sy1)
      end
  end.

(** The external collaborators: the reply of the gateway to the call
    numbered [id] of command [c], and of the event source to a subscription
    request. *)
Record Backend : Type := {
  gateway : forall c : Command, nat -> Result (payload c);
  event_source : string -> nat -> Result UnlistenFn
}.

Section Replies.

Variable be : Backend.

(** The reply to call [id] arrives: the call suspended on it resumes and
    runs up to its next suspension; a [Promise.all] it was a member of is
    joined again. *)
Fixpoint settle (id : nat) (A : Type) (b : Blocked A) (sy : Sys) {struct b}
  : Blocked A * Sys :=
  match b with
  | Settled r => (Settled r, sy)
  | AwaitInvoke id' c k =>
      if Nat.eqb id id'
      then advance (k (gateway be c id)) (note (Replied id) sy)
      else (AwaitInvoke id' c k, sy)
  | AwaitListen id' ev h k =>
      if Nat.eqb id id'
      then advance (k (event_source be ev id)) (note (Replied id) sy)
      else (AwaitListen id' ev h k, sy)
  | AwaitAll bs k =>
      let '(bs', sy1) :=
        (fix members (bs : list (Blocked unit)) (sy : Sys)
           : list (Blocked unit) * Sys :=
           match bs with
           | [] => ([], sy)
           | b :: bs' =>
               let '(b', sy') := settle id b sy in
               let '(bs'', sy'') := members bs' sy' in
               (b' :: bs'', sy'')
           end) bs sy in
      match join bs' with
      | Some r => advance (k r) (detach (unsettled bs') sy1)
      | None => (AwaitAll bs' k, sy1)
      end
  end.

Fixpoint settle_each (id : nat) (bs : list (Blocked unit)) (sy : Sys)
  : list (Blocked unit) * Sys :=
  match bs with
  | [] => ([], sy)
  | b :: bs' =>
      let '(b', sy') := settle id b sy in
      let '(bs'', sy'') := settle_each id bs' sy' in
      (b' :: bs'', sy'')
  end.

(** The numbers of the calls a suspended call waits for. *)
Fixpoint in_flight (A : Type) (b : Blocked A) {struct b} : list nat :=
  match b with
  | Settled _ => []
  | AwaitInvoke id _ _ => [id]
  | AwaitListen id _ _ _ => [id]
  | AwaitAll bs _ =>
      (fix members (bs : list (Blocked unit)) : list nat :=
         match bs with
         | [] => []
         | b :: bs' => (in_flight b ++ members bs')%list
         end) bs
  end.

Definition all_in_flight (A : Type) (cfg : Blocked A * Sys) : list nat :=
  (in_flight (fst cfg)
     ++ flat_map (@in_flight unit) (background (snd cfg)))%list.

(** Delivery of one reply to the whole system: the awaited call and the
    calls in the background. *)
Definition deliver (id : nat) (A : Type) (cfg : Blocked A * Sys)
  : Blocked A * Sys :=
  let '(b, sy) := cfg in
  let bg := background sy in
  let '(b', sy1) :=
    settle id b {| store := store sy; log := log sy; next := next sy;
                   background := [] |} in
  let '(bg', sy2) := settle_each id bg sy1 in
  (b', {| store := store sy2; log := log sy2; next := next sy2;
          background := (unsettled bg' ++ background sy2)%list |}).

(** The order of arrival is the environment's choice: each entry of a
    schedule picks one of the calls in flight (its position among them,
    modulo their number), whose reply arrives next.  A schedule that ends
    while calls are in flight leaves them hanging. *)
Definition pick (n : nat) (id : nat) (ids : list nat) : nat :=
  nth (n mod S (length ids)) (id :: ids) id.

Fixpoint run (sched : list nat) (A : Type) (cfg : Blocked A * Sys)
  : Blocked A * Sys :=
  match sched with
  | [] => cfg
  | n :: rest =>
      match all_in_flight cfg with
      | [] => cfg
      | id :: ids => run rest (deliver (pick n id ids) cfg)
      end
  end.

(** Calling an asynchronous function in state [s], and the replies then
    arriving as [sched] says. *)
Definition call (A : Type) (f : Task A) (s : Store) : Blocked A * Sys :=
  advance f (boot s).

Definition exec (A : Type) (f : Task A) (sched : list nat) (s : Store)
  : Blocked A * Sys :=
  run sched (call f s).

End Replies.

(** ** The component *)

Module App.

(** [err instanceof Error ? err.message : String(err)] *)
Definition message_of (err : JsValue) : string :=
  match err with
  | ErrorInstance _ message => message
  | NonError _ => js_String err
  end.

Definition refreshDevices : Task unit :=
  try
    result <- invoke get_usb_devices ;;
    set (setDevices result) ;;
    set (setError None)
  catch (fun err =>
    set (setError (Some ("Failed to fetch devices: " ++ message_of err)))).

Definition refreshTrustedDevices : Task unit :=
  try
    result <- invoke get_trusted_devices ;;
    set (setTrustedDevices result)
  catch (fun err =>
    set (setError
           (Some ("Failed to fetch trusted devices: " ++ message_of err)))).

Definition checkAutoblockMode : Task unit :=
  try
    result <- invoke get_autoblock_mode ;;
    set (setAutoblockEnabled result)
  catch (fun err =>
    set (setError
           (Some ("Failed to get autoblock status: " ++ message_of err)))).

(** The body of the effect that runs once, when the component mounts.  It
    resolves with the function that ends the subscription, or with
    nothing. *)
Definition initializeApp : Task (option UnlistenFn) :=
  try
    Promise_all [refreshDevices; refreshTrustedDevices; checkAutoblockMode] ;;
    unlisten <- listen "usb-device-changed" refreshDevices ;;
    Ret (Some unlisten)
  catch (fun err =>
    set (setError (Some (message_of err))) ;;
    Ret None)
  finally
    (set (setIsLoading false)).

Definition toggleDeviceTrust (device : UsbDeviceInfo) : Task unit :=
  try
    (if trusted device
     then invoke (remove_trusted_device (vendor_id device) (product_id device))
     else invoke (add_trusted_device (vendor_id device) (product_id device))) ;;
    Promise_all [refreshDevices; refreshTrustedDevices]
  catch (fun err =>
    set (setError
           (Some ("Failed to update device trust: " ++ message_of err)))).

(** [autoblockEnabled] is the value of the state cell in the render whose
    closure the handler is. *)
Definition toggleAutoblock (autoblockEnabled : bool) : Task unit :=
  try
    let newMode := negb autoblockEnabled in
    invoke (set_autoblock_mode newMode) ;;
    set (setAutoblockEnabled newMode)
  catch (fun err =>
    set (setError (Some ("Failed to toggle autoblock: " ++ message_of err)))).

Definition blockAllPorts : Task unit :=
  set (setBlockStatus blocking) ;;
  (try
     invoke block_all_usb_ports ;;
     invoke restart_usb_service ;;
     refreshDevices ;;
     set (setError None)
   catch (fun err =>
     set (setError (Some (js_String err))))
   finally
     (set (setBlockStatus idle))).

Definition unblockPorts : Task unit :=
  try
    invoke unblock_usb_port ;;
    refreshDevices
  catch (fun err =>
    set (setError (Some ("Failed to unblock ports: " ++ message_of err)))).

End App.
Import App.

(** ** Reading a run *)

Arguments pick : simpl never.

(** The promise of the call of [f] made in state [s], the state of the
    component, the events so far and the calls in flight, after the replies
    that [sched] lets arrive. *)
Definition outcome (be : Backend) (A : Type) (f : Task A) (sched : list nat)
    (s : Store) : Blocked A :=
  fst (exec be f sched s).

Definition final (be : Backend) (A : Type) (f : Task A) (sched : list nat)
    (s : Store) : Store :=
  store (snd (exec be f sched s)).

Definition history (be : Backend) (A : Type) (f : Task A) (sched : list nat)
    (s : Store) : list Event :=
  log (snd (exec be f sched s)).

Definition waiting (be : Backend) (A : Type) (f : Task A) (sched : list nat)
    (s : Store) : list nat :=
  all_in_flight (exec be f sched s).

(** The same at the moment the call returns its promise to the caller,
    before any reply. *)
Definition at_call (A : Type) (f : Task A) (s : Store) : Store :=
  store (snd (call f s)).

Definition opening (A : Type) (f : Task A) (s : Store) : list Event :=
  log (snd (call f s)).

Definition is_ok {A : Type} (r : Result A) : bool :=
  match r with
  | Ok _ => true
  | Err _ => false
  end.

(** The commands sent to the gateway, in order. *)
Fixpoint commands (l : list Event) : list Command :=
  match l with
  | [] => []
  | Invoked _ c :: l' => c :: commands l'
  | _ :: l' => commands l'
  end.

(** The subscriptions asked of the event source, in order. *)
Fixpoint subscriptions (l : list Event) : list (nat * string * Task unit) :=
  match l with
  | [] => []
  | Subscribing id ev h :: l' => (id, ev, h) :: subscriptions l'
  | _ :: l' => subscriptions l'
  end.

Definition is_reply (id : nat) (e : Event) : bool :=
  match e with
  | Replied id' => Nat.eqb id id'
  | _ => false
  end.

Definition is_subscribing (e : Event) : bool :=
  match e with
  | Subscribing _ _ _ => true
  | _ => false
  end.

Definition writes_isLoading (e : Event) : bool :=
  match e with
  | Wrote (setIsLoading _) => true
  | _ => false
  end.

Definition writes_blockStatus (e : Event) : bool :=
  match e with
  | Wrote (setBlockStatus _) => true
  | _ => false
  end.

Definition writes_autoblockEnabled (e : Event) : bool :=
  match e with
  | Wrote (setAutoblockEnabled _) => true
  | _ => false
  end.

(** [precedes p q l]: every event of [l] that satisfies [q] comes after one
    that satisfies [p]. *)
Fixpoint precedes (p q : Event -> bool) (l : list Event) : bool :=
  match l with
  | [] => true
  | e :: l' =>
      if p e then true
      else if q e then false
      else precedes p q l'
  end.

(** The command toggleDeviceTrust sends for a device. *)
Definition trust_command (device : UsbDeviceInfo) : Command :=
  if trusted device
  then remove_trusted_device (vendor_id device) (product_id device)
  else add_trusted_device (vendor_id device) (product_id device).

(** ** Sample data *)

Definition mouse : UsbDeviceInfo := {|
  vendor_id := 0x046D;
  product_id := 0xC52B;
  manufacturer := Some "Logitech";
  product := Some "USB Receiver";
  serial_number := None;
  port_number := Some 2%Z;
  connected := true;
  trusted := false
|}.

Definition replies_of (c : Command) : Result (payload c) :=
  match c with
  | get_usb_devices => Ok [mouse]
  | get_trusted_devices => Ok []
  | get_autoblock_mode => Ok false
  | _ => Ok tt
  end.

(** A backend on which every command succeeds. *)
Definition healthy : Backend := {|
  gateway := fun c _ => replies_of c;
  event_source := fun _ n => Ok (Unlisten n)
|}.

(** The string a command of the Rust side fails with. *)
Definition denied : JsValue := NonError "Access is denied. (os error 5)".

Definition same_command (c d : Command) : bool :=
  match c, d with
  | get_usb_devices, get_usb_devices
  | get_trusted_devices, get_trusted_devices
  | get_autoblock_mode, get_autoblock_mode
  | block_all_usb_ports, block_all_usb_ports
  | restart_usb_service, restart_usb_service
  | unblock_usb_port, unblock_usb_port => true
  | add_trusted_device v p, add_trusted_device v' p'
  | remove_trusted_device v p, remove_trusted_device v' p' =>
      Z.eqb v v' && Z.eqb p p'
  | set_autoblock_mode b, set_autoblock_mode b' => Bool.eqb b b'
  | _, _ => false
  end.

(** A backend on which exactly the command [bad] is rejected. *)
Definition failing (bad : Command) : Backend := {|
  gateway := fun c _ => if same_command c bad then Err denied else replies_of c;
  event_source := fun _ n => Ok (Unlisten n)
|}.

(** A backend whose gateway rejects every command. *)
Definition locked_down : Backend := {|
  gateway := fun c _ => Err denied;
  event_source := fun _ n => Ok (Unlisten n)
|}.

(** A state with an error pending. *)
Definition stale : Store := {|
  devices := [];
  trustedDevices := [(0x046D, 0xC52B)%Z];
  autoblockEnabled := true;
  error := Some "Failed to fetch devices: timeout";
  isLoading := false;
  blockStatus := idle
|}.

(** ** What the component shows *)

(** The test JavaScript makes of a [string | null] value in a condition or
    at the left of [&&] and [||]: [null] and the empty string fail it. *)
Definition truthy (v : option string) : bool :=
  match v with
  | Some (String _ _) => true
  | _ => false
  end.

(** [v || fallback] *)
Definition or_else (v : option string) (fallback : string) : string :=
  match v with
  | Some (String c rest) => String c rest
  | _ => fallback
  end.

(** [v && v]: what a row guarded by [v &&] shows, if it is there. *)
Definition and_then (v : option string) : option string :=
  if truthy v then v else None.

(** [n.toString(16)] for an integer [n]: lower-case digits, no leading
    zero, a minus sign before the digits of a negative number. *)
Definition toString16 (n : Z) : string :=
  HexadecimalString.NilZero.string_of_int (Z.to_hex_int n).

(** [k] characters taken from [pad] over and over, starting inside it at
    [rest]; nothing when [pad] is empty. *)
Fixpoint filler (k : nat) (pad rest : string) : string :=
  match k with
  | 0 => ""
  | S k' =>
      match rest with
      | String c rest' => String c (filler k' pad rest')
      | EmptyString =>
          match pad with
          | String c pad' => String c (filler k' pad pad')
          | EmptyString => ""
          end
      end
  end.

(** [s.padStart(targetLength, padString)] *)
Definition padStart (targetLength : nat) (padString s : string) : string :=
  filler (targetLength - String.length s) padString padString ++ s.

(** The reading of a string of hexadecimal digits, to state what the
    texts of the identifiers determine. *)
Definition parse_hex (s : string) : option Z :=
  option_map Z.of_hex_int (HexadecimalString.NilZero.int_of_string s).

Module DeviceCard.

Record Props : Type := {
  device : UsbDeviceInfo;
  onToggleTrust : UsbDeviceInfo -> Task unit;
  isTrusted : bool
}.

(** The card as shown, without its styling: the heading, the badge, the
    two identifiers, the rows that are there only when their field is, and
    the button with what a click on it calls. *)
Record Card : Type := {
  heading : string;
  badge : string;
  vendor_text : string;
  product_text : string;
  manufacturer_row : option string;
  serial_row : option string;
  button_label : string;
  onClick : Task unit
}.

Definition render (props : Props) : Card := {|
  heading := or_else (product (device props)) "Unknown Device";
  badge := if isTrusted props then "Trusted" else "Untrusted";
  vendor_text :=
    "0x" ++ padStart 4 "0" (toString16 (vendor_id (device props)));
  product_text :=
    "0x" ++ padStart 4 "0" (toString16 (product_id (device props)));
  manufacturer_row := and_then (manufacturer (device props));
  serial_row := and_then (serial_number (device props));
  button_label := if isTrusted props then "Revoke Trust" else "Grant Trust";
  onClick := onToggleTrust props (device props)
|}.

End DeviceCard.

Module ErrorAlert.

Record Props : Type := {
  message : string;
  onDismiss : Task unit
}.

End ErrorAlert.

Module EmptyState.

(** The icon is left out. *)
Record Props : Type := {
  title : string;
  description : string
}.

End EmptyState.

Module View.

(** [devices.filter((d) => d.trusted)] and
    [devices.filter((d) => !d.trusted)] *)
Definition trustedDeviceList (s : Store) : list UsbDeviceInfo :=
  filter (fun d => trusted d) (devices s).

Definition untrustedDeviceList (s : Store) : list UsbDeviceInfo :=
  filter (fun d => negb (trusted d)) (devices s).

(** One of the two device sections: its cards, or the empty state. *)
Inductive Panel : Type :=
| Cards (cards : list DeviceCard.Props)
| Empty (props : EmptyState.Props).

(** What [App] returns once loaded, without its styling and fixed texts:
    the alert, the status text, the two buttons, the checkbox, the three
    numbers of the stats card, and the two sections with their counts. *)
Record Dashboard : Type := {
  alert : option ErrorAlert.Props;
  status : BlockStatus;
  onBlock : Task unit;
  onUnblock : Task unit;
  checked : bool;
  onChange : Task unit;
  total : nat;
  trusted_total : nat;
  untrusted_total : nat;
  trusted_count : nat;
  trusted_panel : Panel;
  untrusted_count : nat;
  untrusted_panel : Panel
}.

Inductive Screen : Type :=
| LoadingScreen
| Main (d : Dashboard).

(** The dashboard [App] returns in a render with state [s] that is not
    loading. *)
Definition dashboard (s : Store) : Dashboard := {|
  alert :=
    match error s with
    | Some (String c rest) =>
        Some {| ErrorAlert.message := String c rest;
                ErrorAlert.onDismiss := set (setError None) |}
    | _ => None
    end;
  status := blockStatus s;
  onBlock := App.blockAllPorts;
  onUnblock := App.unblockPorts;
  checked := autoblockEnabled s;
  onChange := App.toggleAutoblock (autoblockEnabled s);
  total := length (devices s);
  trusted_total := length (trustedDeviceList s);
  untrusted_total := length (untrustedDeviceList s);
  trusted_count := length (trustedDeviceList s);
  trusted_panel :=
    if Nat.ltb 0 (length (trustedDeviceList s))
    then Cards (map (fun device =>
                       {| DeviceCard.device := device;
                          DeviceCard.onToggleTrust := App.toggleDeviceTrust;
                          DeviceCard.isTrusted := true |})
                  (trustedDeviceList s))
    else Empty {| EmptyState.title := "No trusted devices";
                  EmptyState.description :=
                    "Add devices to your trusted list" |};
  untrusted_count := length (untrustedDeviceList s);
  untrusted_panel :=
    if Nat.ltb 0 (length (untrustedDeviceList s))
    then Cards (map (fun device =>
                       {| DeviceCard.device := device;
                          DeviceCard.onToggleTrust := App.toggleDeviceTrust;
                          DeviceCard.isTrusted := false |})
                  (untrustedDeviceList s))
    else Empty {| EmptyState.title := "No threats detected";
                  EmptyState.description :=
                    "All connected devices are trusted" |}
|}.

(** The value [App] returns in a render with state [s]. *)
Definition render (s : Store) : Screen :=
  if isLoading s then LoadingScreen else Main (dashboard s).

(** The cards of a section. *)
Definition cards_of (p : Panel) : list DeviceCard.Props :=
  match p with
  | Cards cards => cards
  | Empty _ => []
  end.

(** The message on the screen, if one is. *)
Definition shown_error (sc : Screen) : option string :=
  match sc with
  | Main d => option_map ErrorAlert.message (alert d)
  | LoadingScreen => None
  end.

(** The cleanup function the effect returns, given the promise of
    [initializeApp] as it stands: its [then] callback runs once the promise
    is fulfilled, and calls the value when that is a function.  The result
    lists the functions called. *)
Definition cleanup (cleanupPromise : Blocked (option UnlistenFn))
  : list UnlistenFn :=
  match cleanupPromise with
  | Settled (Ok (Some unlisten)) => [unlisten]
  | _ => []
  end.

End View.

(** A state with a trusted and an untrusted device plugged in. *)
Definition keyboard : UsbDeviceInfo := {|
  vendor_id := 0x04F2;
  product_id := 0x0112;
  manufacturer := Some "";
  product := None;
  serial_number := Some "K-0042";
  port_number := None;
  connected := true;
  trusted := true
|}.

Definition plugged : Store := {|
  devices := [mouse; keyboard];
  trustedDevices := [(0x04F2, 0x0112)%Z];
  autoblockEnabled := true;
  error := Some "Failed to fetch devices: timeout";
  isLoading := false;
  blockStatus := idle
|}.

(** The number of the call whose reply arrived last. *)
Fixpoint last_reply (l : list Event) : option nat :=
  match l with
  | [] => None
  | Replied id :: l' =>
      match last_reply l' with
      | Some id' => Some id'
      | None => Some id
      end
  | _ :: l' => last_reply l'
  end.

(** A [Promise.all] with a member that does not catch its failure, to
    exercise the run time: the component has none. *)
Definition unguarded_pair : Task unit :=
  Promise_all [invoke restart_usb_service; App.refreshDevices].

(** ** Facts about the run time *)

Lemma pick_in (n id : nat) (ids : list nat) : In (pick n id ids) (id :: ids).
Proof.
  unfold pick. apply nth_In.
  change (length (id :: ids)) with (S (length ids)).
  apply Nat.mod_upper_bound. discriminate.
Qed.

Lemma pick_single (n id : nat) : pick n id [] = id.
Proof.
  pose proof (pick_in n id []) as H. destruct H as [H | []]. now symmetry.
Qed.

Lemma run_quiet (be : Backend) (A : Type) (sched : list nat)
    (cfg : Blocked A * Sys) :
  all_in_flight cfg = [] -> run be sched cfg = cfg.
Proof.
  intros H. destruct sched as [| n rest]; [reflexivity |].
  cbn [run]. now rewrite H.
Qed.

(** [Promise.all] fails fast: once the first member is rejected the awaiting
    call is rejected with the same value, while the other member stays in
    flight and still writes its result when its reply arrives. *)
Lemma Promise_all_fails_fast :
  outcome (failing restart_usb_service) unguarded_pair [0] initial_store
  = Settled (Err denied)
  /\ waiting (failing restart_usb_service) unguarded_pair [0] initial_store
     = [1]
  /\ devices
       (final (failing restart_usb_service) unguarded_pair [0] initial_store)
     = []
  /\ devices
       (final (failing restart_usb_service) unguarded_pair [0; 0]
          initial_store)
     = [mouse].
Proof.
  repeat split.
Qed.

(** Symbolic execution of a run: take the next reply from a hypothesis or
    split on it, and split on which call in flight the schedule picks. *)
Ltac next_reply :=
  match goal with
  | H : gateway ?be ?c ?n = _ |- context [gateway ?be ?c ?n] => rewrite H
  | H : event_source ?be ?ev ?n = _
    |- context [event_source ?be ?ev ?n] => rewrite H
  | |- context [gateway ?be ?c ?n] => destruct (gateway be c n) eqn:?
  | |- context [event_source ?be ?ev ?n] =>
      destruct (event_source be ev n) eqn:?
  end.

Ltac next_pick :=
  match goal with
  | |- context [pick ?n ?id []] => rewrite (pick_single n id)
  | |- context [pick ?n ?id ?ids] =>
      let p := fresh "p" in
      let Hp := fresh "Hp" in
      pose proof (pick_in n id ids) as Hp;
      generalize dependent (pick n id ids); intros p Hp;
      cbn [In] in Hp;
      repeat match type of Hp with
             | _ \/ _ => destruct Hp as [Hp | Hp]
             end;
      [subst p .. | destruct Hp]
  end.

Ltac quiet :=
  match goal with
  | |- context [run ?be ?sched ?cfg] =>
      rewrite (@run_quiet be _ sched cfg) by reflexivity
  end.

Ltac crank :=
  unfold outcome, final, history, waiting, at_call, opening, exec, call;
  repeat (cbn; first [next_pick | next_reply | quiet]);
  cbn.

(** The same with the run evaluated once, for a goal that reads it at
    several places. *)
Ltac crank_run :=
  unfold outcome, final, history, waiting;
  match goal with
  | |- context [exec ?be ?f ?sched ?s] =>
      let cfg := fresh "cfg" in
      let E := fresh "E" in
      remember (exec be f sched s) as cfg eqn:E; revert E
  end;
  crank; intros ->; cbn.

(** Every failure of a fetch is caught inside it: whatever the reply, the
    promise of a fetch is fulfilled, never rejected, so the [Promise.all]
    over fetches is never rejected either. *)
Lemma fetches_recover (be : Backend) (s : Store) (n : nat) (rest : list nat) :
  outcome be refreshDevices (n :: rest) s = Settled (Ok tt)
  /\ outcome be refreshTrustedDevices (n :: rest) s = Settled (Ok tt)
  /\ outcome be checkAutoblockMode (n :: rest) s = Settled (Ok tt).
Proof.
  repeat split; crank; reflexivity.
Qed.

(** ** Block all ports *)

(** C2: blockAllPorts sets the status to Blocking before anything else, the
    call concludes once the replies it waits for have arrived, and the
    status is Idle from then on, whatever the replies were; until then it
    is Blocking. *)
Theorem blockAllPorts_status_bracket
    (be : Backend) (s : Store) (sched : list nat) (n1 n2 n3 : nat)
    (rest : list nat) :
  opening blockAllPorts s
    = [Wrote (setBlockStatus blocking); Invoked 0 block_all_usb_ports]
  /\ blockStatus (at_call blockAllPorts s) = blocking
  /\ is_settled (outcome be blockAllPorts (n1 :: n2 :: n3 :: rest) s) = true
  /\ blockStatus (final be blockAllPorts sched s)
     = if is_settled (outcome be blockAllPorts sched s)
       then idle else blocking.
Proof.
  repeat split.
  - crank; reflexivity.
  - destruct sched as [| m1 [| m2 [| m3 more]]]; crank; reflexivity.
Qed.

(** C3: blockAllPorts sends "block_all_usb_ports" first.  When that call is
    rejected, or when it succeeds and "restart_usb_service" is rejected,
    the error slot is the bare conversion of the rejection to a string,
    nothing is sent after the rejected command (the restart is sent only
    after the block succeeded, the device list is not fetched), and the
    call concludes. *)
Theorem blockAllPorts_short_circuit
    (be : Backend) (s : Store) (e : JsValue) (n1 n2 : nat) (rest : list nat) :
  gateway be block_all_usb_ports 0 = Err e
  \/ (is_ok (gateway be block_all_usb_ports 0) = true
      /\ gateway be restart_usb_service 1 = Err e) ->
  commands (opening blockAllPorts s) = [block_all_usb_ports]
  /\ outcome be blockAllPorts (n1 :: n2 :: rest) s = Settled (Ok tt)
  /\ error (final be blockAllPorts (n1 :: n2 :: rest) s) = Some (js_String e)
  /\ commands (history be blockAllPorts (n1 :: n2 :: rest) s)
     = (if is_ok (gateway be block_all_usb_ports 0)
        then [block_all_usb_ports; restart_usb_service]
        else [block_all_usb_ports])
  /\ devices (final be blockAllPorts (n1 :: n2 :: rest) s) = devices s.
Proof.
  intros [H | [H1 H2]]; crank; try discriminate; repeat split.
Qed.

Lemma blockAllPorts_short_circuit_witness :
  (gateway (failing restart_usb_service) block_all_usb_ports 0 = Err denied
   \/ (is_ok (gateway (failing restart_usb_service) block_all_usb_ports 0)
       = true
       /\ gateway (failing restart_usb_service) restart_usb_service 1
          = Err denied))
  /\ commands (opening blockAllPorts stale) = [block_all_usb_ports]
  /\ outcome (failing restart_usb_service) blockAllPorts [0; 0] stale
     = Settled (Ok tt)
  /\ error (final (failing restart_usb_service) blockAllPorts [0; 0] stale)
     = Some "Access is denied. (os error 5)"
  /\ commands (history (failing restart_usb_service) blockAllPorts [0; 0] stale)
     = [block_all_usb_ports; restart_usb_service]
  /\ devices (final (failing restart_usb_service) blockAllPorts [0; 0] stale)
     = [].
Proof.
  split.
  - right. split; reflexivity.
  - apply (@blockAllPorts_short_circuit (failing restart_usb_service) stale
             denied 0 0 []).
    right. split; reflexivity.
Defined.

(** C10: when both commands of blockAllPorts and the device fetch that
    follows succeed, the error slot ends absent, whatever it held before. *)
Theorem blockAllPorts_success_clears_error
    (be : Backend) (s : Store) (ds : list UsbDeviceInfo) (n1 n2 n3 : nat)
    (rest : list nat) :
  is_ok (gateway be block_all_usb_ports 0) = true ->
  is_ok (gateway be restart_usb_service 1) = true ->
  gateway be get_usb_devices 2 = Ok ds ->
  outcome be blockAllPorts (n1 :: n2 :: n3 :: rest) s = Settled (Ok tt)
  /\ error (final be blockAllPorts (n1 :: n2 :: n3 :: rest) s) = None
  /\ devices (final be blockAllPorts (n1 :: n2 :: n3 :: rest) s) = ds
  /\ commands (history be blockAllPorts (n1 :: n2 :: n3 :: rest) s)
     = [block_all_usb_ports; restart_usb_service; get_usb_devices].
Proof.
  intros H1 H2 H3; crank; try discriminate; repeat split.
Qed.

Lemma blockAllPorts_success_clears_error_witness :
  error stale = Some "Failed to fetch devices: timeout"
  /\ outcome healthy blockAllPorts [0; 0; 0] stale = Settled (Ok tt)
  /\ error (final healthy blockAllPorts [0; 0; 0] stale) = None
  /\ devices (final healthy blockAllPorts [0; 0; 0] stale) = [mouse]
  /\ commands (history healthy blockAllPorts [0; 0; 0] stale)
     = [block_all_usb_ports; restart_usb_service; get_usb_devices].
Proof.
  split; [reflexivity |].
  apply (@blockAllPorts_success_clears_error healthy stale [mouse] 0 0 0 []);
    reflexivity.
Defined.

(** ** Fetches and the error slot *)

(** C1 (as the code has it): a successful device fetch stores the devices
    and clears the error slot, whatever it held; a successful trusted-pair
    fetch stores the pairs and leaves the error slot as it was. *)
Theorem fetch_success_and_error_slot
    (be : Backend) (s : Store) (ds : list UsbDeviceInfo)
    (ts : list TrustedDevice) (n : nat) (rest : list nat) :
  gateway be get_usb_devices 0 = Ok ds ->
  gateway be get_trusted_devices 0 = Ok ts ->
  (outcome be refreshDevices (n :: rest) s = Settled (Ok tt)
   /\ devices (final be refreshDevices (n :: rest) s) = ds
   /\ error (final be refreshDevices (n :: rest) s) = None)
  /\ (outcome be refreshTrustedDevices (n :: rest) s = Settled (Ok tt)
      /\ trustedDevices (final be refreshTrustedDevices (n :: rest) s) = ts
      /\ error (final be refreshTrustedDevices (n :: rest) s) = error s).
Proof.
  intros Hd Ht; split; crank; repeat split.
Qed.

Lemma fetch_success_and_error_slot_witness :
  (outcome healthy refreshDevices [0] stale = Settled (Ok tt)
   /\ devices (final healthy refreshDevices [0] stale) = [mouse]
   /\ error (final healthy refreshDevices [0] stale) = None)
  /\ (outcome healthy refreshTrustedDevices [0] stale = Settled (Ok tt)
      /\ trustedDevices (final healthy refreshTrustedDevices [0] stale) = []
      /\ error (final healthy refreshTrustedDevices [0] stale)
         = Some "Failed to fetch devices: timeout").
Proof.
  apply (@fetch_success_and_error_slot healthy stale [mouse] [] 0 []);
    reflexivity.
Defined.

(** C1 as stated fails: with an error pending, a trusted-pair fetch that
    succeeds leaves that error in the slot. *)
Lemma trusted_fetch_keeps_error :
  gateway healthy get_trusted_devices 0 = Ok []
  /\ outcome healthy refreshTrustedDevices [0] stale = Settled (Ok tt)
  /\ trustedDevices (final healthy refreshTrustedDevices [0] stale) = []
  /\ error (final healthy refreshTrustedDevices [0] stale)
     = Some "Failed to fetch devices: timeout"
  /\ error (final healthy refreshTrustedDevices [0] stale) <> None.
Proof.
  repeat split. discriminate.
Qed.

(** ** Toggles *)

(** C4: toggleDeviceTrust first sends "remove_trusted_device" for a trusted
    device and "add_trusted_device" otherwise, with the device's vendor and
    product ids, and changes nothing yet.  When that call succeeds, both
    fetches are sent before the reply to either arrives, and the call
    concludes once both have arrived, in either order, with the device list
    and the trusted pairs each replaced by what its fetch returned (and kept
    where its fetch was rejected).  When it is rejected, nothing more is
    sent, the error slot is "Failed to update device trust: " followed by
    the message, and devices, trusted pairs and policy are as before. *)
Theorem toggleDeviceTrust_protocol
    (be : Backend) (s : Store) (device : UsbDeviceInfo) (n1 n2 n3 : nat)
    (rest : list nat) :
  opening (toggleDeviceTrust device) s = [Invoked 0 (trust_command device)]
  /\ at_call (toggleDeviceTrust device) s = s
  /\ match gateway be (trust_command device) 0 with
     | Ok _ =>
         history be (toggleDeviceTrust device) [n1] s
           = [Invoked 0 (trust_command device); Replied 0;
              Invoked 1 get_usb_devices; Invoked 2 get_trusted_devices]
         /\ waiting be (toggleDeviceTrust device) [n1] s = [1; 2]
         /\ final be (toggleDeviceTrust device) [n1] s = s
         /\ is_settled
              (outcome be (toggleDeviceTrust device)
                 (n1 :: n2 :: n3 :: rest) s)
            = true
         /\ outcome be (toggleDeviceTrust device) (n1 :: n2 :: n3 :: rest) s
            = Settled (Ok tt)
         /\ commands
              (history be (toggleDeviceTrust device)
                 (n1 :: n2 :: n3 :: rest) s)
            = [trust_command device; get_usb_devices; get_trusted_devices]
         /\ devices
              (final be (toggleDeviceTrust device) (n1 :: n2 :: n3 :: rest) s)
            = match gateway be get_usb_devices 1 with
              | Ok ds => ds
              | Err _ => devices s
              end
         /\ trustedDevices
              (final be (toggleDeviceTrust device) (n1 :: n2 :: n3 :: rest) s)
            = match gateway be get_trusted_devices 2 with
              | Ok ts => ts
              | Err _ => trustedDevices s
              end
         /\ autoblockEnabled
              (final be (toggleDeviceTrust device) (n1 :: n2 :: n3 :: rest) s)
            = autoblockEnabled s
     | Err e =>
         outcome be (toggleDeviceTrust device) (n1 :: rest) s
           = Settled (Ok tt)
         /\ commands (history be (toggleDeviceTrust device) (n1 :: rest) s)
            = [trust_command device]
         /\ error (final be (toggleDeviceTrust device) (n1 :: rest) s)
            = Some ("Failed to update device trust: " ++ App.message_of e)
         /\ String.prefix "Failed to update device trust:"
              ("Failed to update device trust: " ++ App.message_of e)
            = true
         /\ devices (final be (toggleDeviceTrust device) (n1 :: rest) s)
            = devices s
         /\ trustedDevices (final be (toggleDeviceTrust device) (n1 :: rest) s)
            = trustedDevices s
         /\ autoblockEnabled
              (final be (toggleDeviceTrust device) (n1 :: rest) s)
            = autoblockEnabled s
     end.
Proof.
  destruct s, device as [v p ? ? ? ? ? [|]]; crank; repeat split.
Qed.

(** C5: toggleAutoblock, in a render where the policy flag is [b], sends
    "set_autoblock_mode" with [enabled] the negation of [b] and writes
    nothing before the reply.  On success the flag becomes the negation of
    [b], written after the reply; on rejection the flag stays [b] and the
    error slot is "Failed to toggle autoblock: " followed by the message. *)
Theorem toggleAutoblock_protocol
    (be : Backend) (s : Store) (b : bool) (n : nat) (rest : list nat) :
  autoblockEnabled s = b ->
  opening (toggleAutoblock b) s = [Invoked 0 (set_autoblock_mode (negb b))]
  /\ at_call (toggleAutoblock b) s = s
  /\ outcome be (toggleAutoblock b) (n :: rest) s = Settled (Ok tt)
  /\ match gateway be (set_autoblock_mode (negb b)) 0 with
     | Ok _ =>
         history be (toggleAutoblock b) (n :: rest) s
           = [Invoked 0 (set_autoblock_mode (negb b)); Replied 0;
              Wrote (setAutoblockEnabled (negb b))]
         /\ autoblockEnabled (final be (toggleAutoblock b) (n :: rest) s)
            = negb b
         /\ error (final be (toggleAutoblock b) (n :: rest) s) = error s
     | Err e =>
         existsb writes_autoblockEnabled
           (history be (toggleAutoblock b) (n :: rest) s)
         = false
         /\ autoblockEnabled (final be (toggleAutoblock b) (n :: rest) s) = b
         /\ error (final be (toggleAutoblock b) (n :: rest) s)
            = Some ("Failed to toggle autoblock: " ++ App.message_of e)
         /\ String.prefix "Failed to toggle autoblock:"
              ("Failed to toggle autoblock: " ++ App.message_of e)
            = true
     end.
Proof.
  intros <-. destruct s; crank; repeat split.
Qed.

Lemma toggleAutoblock_protocol_witness :
  autoblockEnabled stale = true
  /\ opening (toggleAutoblock true) stale
     = [Invoked 0 (set_autoblock_mode (negb true))]
  /\ at_call (toggleAutoblock true) stale = stale
  /\ outcome locked_down (toggleAutoblock true) [0] stale = Settled (Ok tt)
  /\ match gateway locked_down (set_autoblock_mode (negb true)) 0 with
     | Ok _ =>
         history locked_down (toggleAutoblock true) [0] stale
           = [Invoked 0 (set_autoblock_mode (negb true)); Replied 0;
              Wrote (setAutoblockEnabled (negb true))]
         /\ autoblockEnabled (final locked_down (toggleAutoblock true) [0] stale)
            = negb true
         /\ error (final locked_down (toggleAutoblock true) [0] stale)
            = error stale
     | Err e =>
         existsb writes_autoblockEnabled
           (history locked_down (toggleAutoblock true) [0] stale)
         = false
         /\ autoblockEnabled (final locked_down (toggleAutoblock true) [0] stale)
            = true
         /\ error (final locked_down (toggleAutoblock true) [0] stale)
            = Some ("Failed to toggle autoblock: " ++ App.message_of e)
         /\ String.prefix "Failed to toggle autoblock:"
              ("Failed to toggle autoblock: " ++ App.message_of e)
            = true
     end.
Proof.
  split; [reflexivity |].
  apply (@toggleAutoblock_protocol locked_down stale true 0 []).
  reflexivity.
Defined.

(** ** Unblock ports *)

(** C8: unblockPorts concludes after at most two replies, and at every point
    of every run, whatever the replies, it has made no call of the status
    setter and the status is the one it started with. *)
Theorem unblockPorts_keeps_status
    (be : Backend) (s : Store) (sched : list nat) (n1 n2 : nat)
    (rest : list nat) :
  is_settled (outcome be unblockPorts (n1 :: n2 :: rest) s) = true
  /\ existsb writes_blockStatus (history be unblockPorts sched s) = false
  /\ blockStatus (final be unblockPorts sched s) = blockStatus s.
Proof.
  repeat split.
  - crank; reflexivity.
  - destruct sched as [| m1 [| m2 more]]; crank; reflexivity.
  - destruct sched as [| m1 [| m2 more]]; crank; reflexivity.
Qed.

(** ** Activation *)

(** What holds at every point of every run of initializeApp: by cases on
    which replies have arrived, in which order, and what they were. *)
Lemma initializeApp_runs (be : Backend) (s : Store) (sched : list nat) :
  (precedes (is_reply 0) is_subscribing (history be initializeApp sched s)
   = true
   /\ precedes (is_reply 1) is_subscribing (history be initializeApp sched s)
      = true
   /\ precedes (is_reply 2) is_subscribing (history be initializeApp sched s)
      = true)
  /\ (subscriptions (history be initializeApp sched s) = []
      \/ subscriptions (history be initializeApp sched s)
         = [(3, "usb-device-changed", refreshDevices)])
  /\ precedes (is_reply 3) writes_isLoading (history be initializeApp sched s)
     = true
  /\ autoblockEnabled (final be initializeApp sched s)
     = (if existsb (is_reply 2) (history be initializeApp sched s)
        then match gateway be get_autoblock_mode 2 with
             | Ok v => v
             | Err _ => autoblockEnabled s
             end
        else autoblockEnabled s).
Proof.
  destruct sched as [| m1 [| m2 [| m3 [| m4 more]]]]; crank_run;
    repeat split; solve [left; reflexivity | right; reflexivity].
Qed.

(** C6: on activation the three fetches are sent at once.  In every run, a
    subscription is asked for only after the replies to all three have
    arrived, it is for "usb-device-changed", and its handler is
    refreshDevices, which sends "get_usb_devices" and nothing else; the
    loading flag is written only after the reply to the subscription
    request has arrived, and once it has, the flag is false, whether the
    subscription succeeded or not. *)
Theorem initializeApp_order
    (be : Backend) (s : Store) (sched hsched : list nat) (n1 n2 n3 n4 : nat)
    (rest : list nat) :
  opening initializeApp s
    = [Invoked 0 get_usb_devices; Invoked 1 get_trusted_devices;
       Invoked 2 get_autoblock_mode]
  /\ (precedes (is_reply 0) is_subscribing (history be initializeApp sched s)
      = true
      /\ precedes (is_reply 1) is_subscribing
           (history be initializeApp sched s)
         = true
      /\ precedes (is_reply 2) is_subscribing
           (history be initializeApp sched s)
         = true)
  /\ (subscriptions (history be initializeApp sched s) = []
      \/ subscriptions (history be initializeApp sched s)
         = [(3, "usb-device-changed", refreshDevices)])
  /\ commands (history be refreshDevices hsched s) = [get_usb_devices]
  /\ precedes (is_reply 3) writes_isLoading (history be initializeApp sched s)
     = true
  /\ (is_settled
        (outcome be initializeApp (n1 :: n2 :: n3 :: n4 :: rest) s)
      = true
      /\ subscriptions
           (history be initializeApp (n1 :: n2 :: n3 :: n4 :: rest) s)
         = [(3, "usb-device-changed", refreshDevices)]
      /\ isLoading (final be initializeApp (n1 :: n2 :: n3 :: n4 :: rest) s)
         = false).
Proof.
  destruct (initializeApp_runs be s sched) as (H012 & Hsub & Hload & _).
  split; [reflexivity |].
  split; [exact H012 |].
  split; [exact Hsub |].
  split; [| split; [exact Hload |]].
  - destruct hsched as [| m1 more]; crank; reflexivity.
  - crank_run; repeat split.
Qed.

(** C7 (as the code has it): when the trusted-pair fetch is rejected and the
    other two fetches succeed, then once the three replies have arrived, in
    whatever order, the device list and the policy flag hold the fetched
    values and only the subscription request is in flight.  The error slot
    holds the message about trusted devices when the reply to the device
    fetch arrived before the rejection, and is absent when it arrived after
    it. *)
Theorem partial_triad
    (be : Backend) (s : Store) (ds : list UsbDeviceInfo) (p : bool)
    (e : JsValue) (n1 n2 n3 : nat) :
  gateway be get_usb_devices 0 = Ok ds ->
  gateway be get_trusted_devices 1 = Err e ->
  gateway be get_autoblock_mode 2 = Ok p ->
  waiting be initializeApp [n1; n2; n3] s = [3]
  /\ devices (final be initializeApp [n1; n2; n3] s) = ds
  /\ autoblockEnabled (final be initializeApp [n1; n2; n3] s) = p
  /\ trustedDevices (final be initializeApp [n1; n2; n3] s) = trustedDevices s
  /\ error (final be initializeApp [n1; n2; n3] s)
     = if precedes (is_reply 0) (is_reply 1)
            (history be initializeApp [n1; n2; n3] s)
       then Some ("Failed to fetch trusted devices: " ++ App.message_of e)
       else None.
Proof.
  intros Hd Ht Hp; crank; repeat split.
Qed.

Lemma partial_triad_witness :
  waiting (failing get_trusted_devices) initializeApp [0; 0; 0] initial_store
  = [3]
  /\ devices
       (final (failing get_trusted_devices) initializeApp [0; 0; 0]
          initial_store)
     = [mouse]
  /\ autoblockEnabled
       (final (failing get_trusted_devices) initializeApp [0; 0; 0]
          initial_store)
     = false
  /\ trustedDevices
       (final (failing get_trusted_devices) initializeApp [0; 0; 0]
          initial_store)
     = []
  /\ error
       (final (failing get_trusted_devices) initializeApp [0; 0; 0]
          initial_store)
     = Some "Failed to fetch trusted devices: Access is denied. (os error 5)".
Proof.
  apply (@partial_triad (failing get_trusted_devices) initial_store [mouse]
           false denied 0 0 0); reflexivity.
Defined.

(** C7 as stated fails: the rejection of the trusted-pair fetch arrives
    first, then the devices, then the policy.  All three have settled, the
    devices and the policy are stored, and the error slot is absent: the
    device fetch cleared the message. *)
Lemma partial_triad_error_lost :
  (gateway (failing get_trusted_devices) get_usb_devices 0 = Ok [mouse]
   /\ gateway (failing get_trusted_devices) get_trusted_devices 1 = Err denied
   /\ gateway (failing get_trusted_devices) get_autoblock_mode 2 = Ok false)
  /\ map (fun id =>
            existsb (is_reply id)
              (history (failing get_trusted_devices) initializeApp [1; 0; 0]
                 initial_store))
       [0; 1; 2]
     = [true; true; true]
  /\ devices
       (final (failing get_trusted_devices) initializeApp [1; 0; 0]
          initial_store)
     = [mouse]
  /\ autoblockEnabled
       (final (failing get_trusted_devices) initializeApp [1; 0; 0]
          initial_store)
     = false
  /\ error
       (final (failing get_trusted_devices) initializeApp [1; 0; 0]
          initial_store)
     = None.
Proof.
  repeat split.
Qed.

(** C9: the policy flag starts true, and during activation it stays true
    for as long as no reply to "get_autoblock_mode" has arrived and for
    good when that call is rejected; toggleAutoblock called in such a state
    sends "set_autoblock_mode" with [enabled] false. *)
Theorem autoblock_default_until_fetched (be : Backend) (sched : list nat) :
  is_ok (gateway be get_autoblock_mode 2) = false
  \/ existsb (is_reply 2) (history be initializeApp sched initial_store)
     = false ->
  autoblockEnabled initial_store = true
  /\ autoblockEnabled (final be initializeApp sched initial_store) = true
  /\ opening
       (toggleAutoblock
          (autoblockEnabled (final be initializeApp sched initial_store)))
       (final be initializeApp sched initial_store)
     = [Invoked 0 (set_autoblock_mode false)].
Proof.
  intros H.
  destruct (initializeApp_runs be initial_store sched) as (_ & _ & _ & Hflag).
  assert (Htrue : autoblockEnabled (final be initializeApp sched initial_store)
                  = true).
  { rewrite Hflag. destruct H as [H | H].
    - destruct (gateway be get_autoblock_mode 2); [discriminate H |].
      now destruct (existsb _ _).
    - now rewrite H. }
  split; [reflexivity |]. split; [exact Htrue |].
  rewrite Htrue. reflexivity.
Qed.

Lemma autoblock_default_until_fetched_witness :
  (is_ok (gateway (failing get_autoblock_mode) get_autoblock_mode 2) = false
   \/ existsb (is_reply 2)
        (history (failing get_autoblock_mode) initializeApp [0; 0; 0; 0]
           initial_store)
      = false)
  /\ autoblockEnabled initial_store = true
  /\ autoblockEnabled
       (final (failing get_autoblock_mode) initializeApp [0; 0; 0; 0]
          initial_store)
     = true
  /\ opening
       (toggleAutoblock
          (autoblockEnabled
             (final (failing get_autoblock_mode) initializeApp [0; 0; 0; 0]
                initial_store)))
       (final (failing get_autoblock_mode) initializeApp [0; 0; 0; 0]
          initial_store)
     = [Invoked 0 (set_autoblock_mode false)].
Proof.
  split.
  - left. reflexivity.
  - apply (@autoblock_default_until_fetched (failing get_autoblock_mode)
             [0; 0; 0; 0]).
    left. reflexivity.
Defined.

(** ** The operations beyond their first outcome *)

(** X1: a fetch that is rejected keeps the last snapshot: the state cell it
    would have replaced is as before, and the error slot is the message
    under the fetch's own heading.  So for each of the three fetches. *)
Theorem rejected_fetch_keeps_snapshot
    (be : Backend) (s : Store) (e : JsValue) (n : nat) (rest : list nat) :
  gateway be get_usb_devices 0 = Err e ->
  gateway be get_trusted_devices 0 = Err e ->
  gateway be get_autoblock_mode 0 = Err e ->
  (devices (final be refreshDevices (n :: rest) s) = devices s
   /\ error (final be refreshDevices (n :: rest) s)
      = Some ("Failed to fetch devices: " ++ App.message_of e))
  /\ (trustedDevices (final be refreshTrustedDevices (n :: rest) s)
      = trustedDevices s
      /\ error (final be refreshTrustedDevices (n :: rest) s)
         = Some ("Failed to fetch trusted devices: " ++ App.message_of e))
  /\ (autoblockEnabled (final be checkAutoblockMode (n :: rest) s)
      = autoblockEnabled s
      /\ error (final be checkAutoblockMode (n :: rest) s)
         = Some ("Failed to get autoblock status: " ++ App.message_of e)).
Proof.
  intros Hd Ht Hp. repeat split; crank; reflexivity.
Qed.

Lemma rejected_fetch_keeps_snapshot_witness :
  (devices (final locked_down refreshDevices [0] stale) = devices stale
   /\ error (final locked_down refreshDevices [0] stale)
      = Some ("Failed to fetch devices: " ++ App.message_of denied))
  /\ (trustedDevices (final locked_down refreshTrustedDevices [0] stale)
      = trustedDevices stale
      /\ error (final locked_down refreshTrustedDevices [0] stale)
         = Some ("Failed to fetch trusted devices: " ++ App.message_of denied))
  /\ (autoblockEnabled (final locked_down checkAutoblockMode [0] stale)
      = autoblockEnabled stale
      /\ error (final locked_down checkAutoblockMode [0] stale)
         = Some ("Failed to get autoblock status: " ++ App.message_of denied)).
Proof.
  apply (@rejected_fetch_keeps_snapshot locked_down stale denied 0 []);
    reflexivity.
Defined.

(** X2: a successful policy fetch stores the fetched flag and changes
    nothing else: in particular an error that was pending stays. *)
Theorem checkAutoblockMode_success
    (be : Backend) (s : Store) (p : bool) (n : nat) (rest : list nat) :
  gateway be get_autoblock_mode 0 = Ok p ->
  outcome be checkAutoblockMode (n :: rest) s = Settled (Ok tt)
  /\ final be checkAutoblockMode (n :: rest) s
     = apply_setter (setAutoblockEnabled p) s.
Proof.
  intros Hp. split; crank; reflexivity.
Qed.

Lemma checkAutoblockMode_success_witness :
  outcome healthy checkAutoblockMode [0] stale = Settled (Ok tt)
  /\ final healthy checkAutoblockMode [0] stale
     = apply_setter (setAutoblockEnabled false) stale.
Proof.
  apply (@checkAutoblockMode_success healthy stale false 0 []). reflexivity.
Defined.

(** X4: unblockPorts sends "unblock_usb_port" and, only when that succeeds,
    fetches the devices.  A rejected unblock is reported as "Failed to
    unblock ports: ..." and leaves the devices as they were; a rejected
    fetch after a successful unblock is reported under the fetch's heading,
    not the operation's; when both succeed the devices are replaced and
    the error slot is cleared. *)
Theorem unblockPorts_protocol
    (be : Backend) (s : Store) (n1 n2 : nat) (rest : list nat) :
  opening unblockPorts s = [Invoked 0 unblock_usb_port]
  /\ outcome be unblockPorts (n1 :: n2 :: rest) s = Settled (Ok tt)
  /\ match gateway be unblock_usb_port 0 with
     | Err e =>
         commands (history be unblockPorts (n1 :: n2 :: rest) s)
         = [unblock_usb_port]
         /\ final be unblockPorts (n1 :: n2 :: rest) s
            = apply_setter
                (setError
                   (Some ("Failed to unblock ports: " ++ App.message_of e)))
                s
     | Ok _ =>
         commands (history be unblockPorts (n1 :: n2 :: rest) s)
         = [unblock_usb_port; get_usb_devices]
         /\ final be unblockPorts (n1 :: n2 :: rest) s
            = match gateway be get_usb_devices 1 with
              | Ok ds => apply_setter (setError None)
                           (apply_setter (setDevices ds) s)
              | Err e =>
                  apply_setter
                    (setError
                       (Some ("Failed to fetch devices: "
                              ++ App.message_of e)))
                    s
              end
     end.
Proof.
  repeat split; crank; repeat split.
Qed.

(** X5: when both commands of blockAllPorts succeed and the device fetch
    that follows is rejected, the call still ends with the error slot
    absent and the old device list: the message of the fetch is written
    and at once overwritten. *)
Theorem blockAllPorts_hides_refresh_failure
    (be : Backend) (s : Store) (e : JsValue) (n1 n2 n3 : nat)
    (rest : list nat) :
  is_ok (gateway be block_all_usb_ports 0) = true ->
  is_ok (gateway be restart_usb_service 1) = true ->
  gateway be get_usb_devices 2 = Err e ->
  outcome be blockAllPorts (n1 :: n2 :: n3 :: rest) s = Settled (Ok tt)
  /\ error (final be blockAllPorts (n1 :: n2 :: n3 :: rest) s) = None
  /\ devices (final be blockAllPorts (n1 :: n2 :: n3 :: rest) s) = devices s
  /\ blockStatus (final be blockAllPorts (n1 :: n2 :: n3 :: rest) s) = idle
  /\ existsb
       (fun ev =>
          match ev with
          | Wrote (setError (Some _)) => true
          | _ => false
          end)
       (history be blockAllPorts (n1 :: n2 :: n3 :: rest) s)
     = true.
Proof.
  intros H1 H2 H3. crank; try discriminate; repeat split.
Qed.

Lemma blockAllPorts_hides_refresh_failure_witness :
  outcome (failing get_usb_devices) blockAllPorts [0; 0; 0] stale
  = Settled (Ok tt)
  /\ error (final (failing get_usb_devices) blockAllPorts [0; 0; 0] stale)
     = None
  /\ devices (final (failing get_usb_devices) blockAllPorts [0; 0; 0] stale)
     = devices stale
  /\ blockStatus
       (final (failing get_usb_devices) blockAllPorts [0; 0; 0] stale)
     = idle
  /\ existsb
       (fun ev =>
          match ev with
          | Wrote (setError (Some _)) => true
          | _ => false
          end)
       (history (failing get_usb_devices) blockAllPorts [0; 0; 0] stale)
     = true.
Proof.
  apply (@blockAllPorts_hides_refresh_failure (failing get_usb_devices) stale
           denied 0 0 0 []); reflexivity.
Defined.

(** X6: when toggleDeviceTrust's command and both fetches succeed, then
    whichever reply arrives first, the call ends with the fetched devices
    and the fetched trusted pairs in the state, the error slot absent and
    the policy flag and the status untouched: nothing of the new state
    comes from the command itself. *)
Theorem toggleDeviceTrust_resync
    (be : Backend) (s : Store) (device : UsbDeviceInfo)
    (ds : list UsbDeviceInfo) (ts : list TrustedDevice) (n1 n2 n3 : nat)
    (rest : list nat) :
  is_ok (gateway be (trust_command device) 0) = true ->
  gateway be get_usb_devices 1 = Ok ds ->
  gateway be get_trusted_devices 2 = Ok ts ->
  outcome be (toggleDeviceTrust device) (n1 :: n2 :: n3 :: rest) s
  = Settled (Ok tt)
  /\ final be (toggleDeviceTrust device) (n1 :: n2 :: n3 :: rest) s
     = apply_setter (setError None)
         (apply_setter (setTrustedDevices ts)
            (apply_setter (setDevices ds) s)).
Proof.
  intros H0 Hd Ht. destruct s, device as [v p ? ? ? ? ? [|]];
    cbn in H0; crank; try discriminate; repeat split.
Qed.

Lemma toggleDeviceTrust_resync_witness :
  outcome healthy (toggleDeviceTrust mouse) [0; 1; 0] stale = Settled (Ok tt)
  /\ final healthy (toggleDeviceTrust mouse) [0; 1; 0] stale
     = apply_setter (setError None)
         (apply_setter (setTrustedDevices [])
            (apply_setter (setDevices [mouse]) stale)).
Proof.
  apply (@toggleDeviceTrust_resync healthy stale mouse [mouse] [] 0 1 0 []);
    reflexivity.
Defined.

(** X7: when toggleDeviceTrust's command succeeds and the device fetch that
    follows is rejected, the error is reported under the fetch's heading, in
    either order of arrival, and the trusted pairs are still replaced: the
    device list and the trusted pairs can end up from different moments. *)
Theorem toggleDeviceTrust_half_resync
    (be : Backend) (s : Store) (device : UsbDeviceInfo) (e : JsValue)
    (ts : list TrustedDevice) (n1 n2 n3 : nat) (rest : list nat) :
  is_ok (gateway be (trust_command device) 0) = true ->
  gateway be get_usb_devices 1 = Err e ->
  gateway be get_trusted_devices 2 = Ok ts ->
  outcome be (toggleDeviceTrust device) (n1 :: n2 :: n3 :: rest) s
  = Settled (Ok tt)
  /\ final be (toggleDeviceTrust device) (n1 :: n2 :: n3 :: rest) s
     = apply_setter
         (setError (Some ("Failed to fetch devices: " ++ App.message_of e)))
         (apply_setter (setTrustedDevices ts) s).
Proof.
  intros H0 Hd Ht. destruct s, device as [v p ? ? ? ? ? [|]];
    cbn in H0; crank; try discriminate; repeat split.
Qed.

Lemma toggleDeviceTrust_half_resync_witness :
  outcome (failing get_usb_devices) (toggleDeviceTrust mouse) [0; 1; 0] stale
  = Settled (Ok tt)
  /\ final (failing get_usb_devices) (toggleDeviceTrust mouse) [0; 1; 0] stale
     = apply_setter
         (setError
            (Some ("Failed to fetch devices: " ++ App.message_of denied)))
         (apply_setter (setTrustedDevices []) stale).
Proof.
  apply (@toggleDeviceTrust_half_resync (failing get_usb_devices) stale mouse
           denied [] 0 1 0 []); reflexivity.
Defined.

(** ** Activation, further *)

(** What else holds at every point of every run of initializeApp. *)
Lemma initializeApp_progress (be : Backend) (s : Store) (sched : list nat) :
  isLoading (final be initializeApp sched s)
  = (if existsb (is_reply 3) (history be initializeApp sched s)
     then false else isLoading s)
  /\ is_settled (outcome be initializeApp sched s)
     = existsb (is_reply 3) (history be initializeApp sched s)
  /\ rejection (outcome be initializeApp sched s) = None
  /\ View.cleanup (outcome be initializeApp sched s)
     = (if existsb (is_reply 3) (history be initializeApp sched s)
        then match event_source be "usb-device-changed" 3 with
             | Ok unlisten => [unlisten]
             | Err _ => []
             end
        else [])
  /\ blockStatus (final be initializeApp sched s) = blockStatus s.
Proof.
  destruct sched as [| m1 [| m2 [| m3 [| m4 more]]]]; crank_run;
    repeat split.
Qed.

(** X8: from a state that is loading, as the component is when it mounts,
    the loading screen is what is rendered at every point of activation up
    to the arrival of the reply to the subscription request, and the
    dashboard from then on, whatever the replies were. *)
Theorem loading_screen_until_subscribed
    (be : Backend) (s : Store) (sched : list nat) :
  isLoading s = true ->
  match View.render (final be initializeApp sched s) with
  | View.LoadingScreen =>
      existsb (is_reply 3) (history be initializeApp sched s) = false
  | View.Main _ =>
      existsb (is_reply 3) (history be initializeApp sched s) = true
  end.
Proof.
  intros Hs.
  destruct (initializeApp_progress be s sched) as (Hload & _).
  unfold View.render. rewrite Hload, Hs.
  now destruct (existsb _ _).
Qed.

Lemma loading_screen_until_subscribed_witness :
  isLoading initial_store = true
  /\ match View.render
             (final healthy initializeApp [0; 0; 0] initial_store) with
     | View.LoadingScreen =>
         existsb (is_reply 3)
           (history healthy initializeApp [0; 0; 0] initial_store)
         = false
     | View.Main _ =>
         existsb (is_reply 3)
           (history healthy initializeApp [0; 0; 0] initial_store)
         = true
     end.
Proof.
  split; [reflexivity |].
  apply (@loading_screen_until_subscribed healthy initial_store [0; 0; 0]).
  reflexivity.
Defined.

(** X9: the promise of initializeApp is never rejected, and it is settled
    exactly when the reply to the subscription request has arrived.  The
    cleanup of the effect calls nothing before that, and after it calls
    exactly the function the subscription resolved with, or nothing when
    the subscription was refused. *)
Theorem cleanup_releases_the_subscription
    (be : Backend) (s : Store) (sched : list nat) :
  rejection (outcome be initializeApp sched s) = None
  /\ is_settled (outcome be initializeApp sched s)
     = existsb (is_reply 3) (history be initializeApp sched s)
  /\ View.cleanup (outcome be initializeApp sched s)
     = (if existsb (is_reply 3) (history be initializeApp sched s)
        then match event_source be "usb-device-changed" 3 with
             | Ok unlisten => [unlisten]
             | Err _ => []
             end
        else []).
Proof.
  destruct (initializeApp_progress be s sched) as (_ & Hs & Hr & Hc & _).
  repeat split; assumption.
Qed.

(** X10: when the three fetches succeed, then in whatever order their
    replies arrive, activation ends with the three fetched values stored,
    the error slot absent unless the subscription was refused, and loading
    over.  A refused subscription leaves its bare message in the error slot
    and the promise fulfilled with nothing. *)
Theorem initializeApp_loaded
    (be : Backend) (s : Store) (ds : list UsbDeviceInfo)
    (ts : list TrustedDevice) (p : bool) (n1 n2 n3 n4 : nat)
    (rest : list nat) :
  gateway be get_usb_devices 0 = Ok ds ->
  gateway be get_trusted_devices 1 = Ok ts ->
  gateway be get_autoblock_mode 2 = Ok p ->
  match event_source be "usb-device-changed" 3 with
  | Ok unlisten =>
      outcome be initializeApp (n1 :: n2 :: n3 :: n4 :: rest) s
      = Settled (Ok (Some unlisten))
      /\ final be initializeApp (n1 :: n2 :: n3 :: n4 :: rest) s
         = {| devices := ds; trustedDevices := ts; autoblockEnabled := p;
              error := None; isLoading := false;
              blockStatus := blockStatus s |}
  | Err e =>
      outcome be initializeApp (n1 :: n2 :: n3 :: n4 :: rest) s
      = Settled (Ok None)
      /\ final be initializeApp (n1 :: n2 :: n3 :: n4 :: rest) s
         = {| devices := ds; trustedDevices := ts; autoblockEnabled := p;
              error := Some (App.message_of e); isLoading := false;
              blockStatus := blockStatus s |}
  end.
Proof.
  intros Hd Ht Hp. crank_run; repeat split.
Qed.

Lemma initializeApp_loaded_witness :
  match event_source healthy "usb-device-changed" 3 with
  | Ok unlisten =>
      outcome healthy initializeApp [2; 0; 0; 0] stale
      = Settled (Ok (Some unlisten))
      /\ final healthy initializeApp [2; 0; 0; 0] stale
         = {| devices := [mouse]; trustedDevices := [];
              autoblockEnabled := false;
              error := None; isLoading := false;
              blockStatus := blockStatus stale |}
  | Err e =>
      outcome healthy initializeApp [2; 0; 0; 0] stale
      = Settled (Ok None)
      /\ final healthy initializeApp [2; 0; 0; 0] stale
         = {| devices := [mouse]; trustedDevices := [];
              autoblockEnabled := false;
              error := Some (App.message_of e); isLoading := false;
              blockStatus := blockStatus stale |}
  end.
Proof.
  apply (@initializeApp_loaded healthy stale [mouse] [] false 2 0 0 0 []);
    reflexivity.
Defined.

(** X11: when all three fetches of activation are rejected, the state
    keeps its devices, trusted pairs and policy, and of the three messages
    only one is left in the error slot: that of the fetch whose rejection
    arrived last. *)
Theorem initializeApp_last_failure_wins
    (be : Backend) (s : Store) (e0 e1 e2 : JsValue) (n1 n2 n3 : nat) :
  gateway be get_usb_devices 0 = Err e0 ->
  gateway be get_trusted_devices 1 = Err e1 ->
  gateway be get_autoblock_mode 2 = Err e2 ->
  devices (final be initializeApp [n1; n2; n3] s) = devices s
  /\ trustedDevices (final be initializeApp [n1; n2; n3] s)
     = trustedDevices s
  /\ autoblockEnabled (final be initializeApp [n1; n2; n3] s)
     = autoblockEnabled s
  /\ error (final be initializeApp [n1; n2; n3] s)
     = match last_reply (history be initializeApp [n1; n2; n3] s) with
       | Some 0 => Some ("Failed to fetch devices: " ++ App.message_of e0)
       | Some 1 =>
           Some ("Failed to fetch trusted devices: " ++ App.message_of e1)
       | Some 2 =>
           Some ("Failed to get autoblock status: " ++ App.message_of e2)
       | _ => error s
       end.
Proof.
  intros H0 H1 H2. crank_run; repeat split.
Qed.

Lemma initializeApp_last_failure_wins_witness :
  devices (final locked_down initializeApp [2; 1; 0] stale) = devices stale
  /\ trustedDevices (final locked_down initializeApp [2; 1; 0] stale)
     = trustedDevices stale
  /\ autoblockEnabled (final locked_down initializeApp [2; 1; 0] stale)
     = autoblockEnabled stale
  /\ error (final locked_down initializeApp [2; 1; 0] stale)
     = match last_reply (history locked_down initializeApp [2; 1; 0] stale)
       with
       | Some 0 => Some ("Failed to fetch devices: " ++ App.message_of denied)
       | Some 1 =>
           Some ("Failed to fetch trusted devices: "
                 ++ App.message_of denied)
       | Some 2 =>
           Some ("Failed to get autoblock status: " ++ App.message_of denied)
       | _ => error stale
       end.
Proof.
  apply (@initializeApp_last_failure_wins locked_down stale denied denied
           denied 2 1 0); reflexivity.
Defined.

(** ** The dashboard *)

Lemma filter_split (A : Type) (f : A -> bool) (l : list A) :
  Permutation (filter f l ++ filter (fun x => negb (f x)) l) l.
Proof.
  induction l as [| a l IH]; cbn; [constructor |].
  destruct (f a); cbn.
  - now constructor.
  - apply Permutation_sym, Permutation_cons_app, Permutation_sym, IH.
Qed.

Lemma cards_of_section (mk : UsbDeviceInfo -> DeviceCard.Props)
    (props : EmptyState.Props) (l : list UsbDeviceInfo) :
  View.cards_of
    (if Nat.ltb 0 (length l) then View.Cards (map mk l) else View.Empty props)
  = map mk l.
Proof.
  now destruct l.
Qed.

(** X12: in every render, each device of the state is on exactly one card,
    in the section its flag says and in the order of the state; the
    trusted and untrusted numbers of the stats card add up to the total,
    and the count beside a section is the number of its cards. *)
Theorem every_device_on_one_card (s : Store) :
  map DeviceCard.device (View.cards_of (View.trusted_panel (View.dashboard s)))
  = filter (fun d => trusted d) (devices s)
  /\ map DeviceCard.device
       (View.cards_of (View.untrusted_panel (View.dashboard s)))
     = filter (fun d => negb (trusted d)) (devices s)
  /\ Permutation
       (map DeviceCard.device
          (View.cards_of (View.trusted_panel (View.dashboard s))
           ++ View.cards_of (View.untrusted_panel (View.dashboard s))))
       (devices s)
  /\ View.trusted_total (View.dashboard s)
     + View.untrusted_total (View.dashboard s)
     = View.total (View.dashboard s)
  /\ View.trusted_count (View.dashboard s)
     = length (View.cards_of (View.trusted_panel (View.dashboard s)))
  /\ View.untrusted_count (View.dashboard s)
     = length (View.cards_of (View.untrusted_panel (View.dashboard s))).
Proof.
  unfold View.dashboard; cbn -[Nat.ltb].
  rewrite !cards_of_section, map_app, !map_map; cbn.
  rewrite !map_id, !length_map.
  unfold View.trustedDeviceList, View.untrustedDeviceList.
  repeat split.
  - apply filter_split.
  - rewrite <- length_app. apply Permutation_length, filter_split.
Qed.

(** X13: the button of a card does what its label says.  A card of the
    trusted section is for a device whose flag is set, reads "Trusted" and
    "Revoke Trust", and a click sends "remove_trusted_device" with the
    device's ids; a card of the untrusted section is for a device whose
    flag is not set, reads "Untrusted" and "Grant Trust", and a click sends
    "add_trusted_device" with them. *)
Theorem card_button_does_what_it_says
    (s clicked : Store) (card : DeviceCard.Props) :
  In card
    (View.cards_of (View.trusted_panel (View.dashboard s))
     ++ View.cards_of (View.untrusted_panel (View.dashboard s))) ->
  (In card (View.cards_of (View.trusted_panel (View.dashboard s)))
   /\ trusted (DeviceCard.device card) = true
   /\ DeviceCard.badge (DeviceCard.render card) = "Trusted"
   /\ DeviceCard.button_label (DeviceCard.render card) = "Revoke Trust"
   /\ opening (DeviceCard.onClick (DeviceCard.render card)) clicked
      = [Invoked 0
           (remove_trusted_device (vendor_id (DeviceCard.device card))
              (product_id (DeviceCard.device card)))])
  \/ (In card (View.cards_of (View.untrusted_panel (View.dashboard s)))
      /\ trusted (DeviceCard.device card) = false
      /\ DeviceCard.badge (DeviceCard.render card) = "Untrusted"
      /\ DeviceCard.button_label (DeviceCard.render card) = "Grant Trust"
      /\ opening (DeviceCard.onClick (DeviceCard.render card)) clicked
         = [Invoked 0
              (add_trusted_device (vendor_id (DeviceCard.device card))
                 (product_id (DeviceCard.device card)))]).
Proof.
  intros Hin. apply in_app_or in Hin. destruct Hin as [Hin | Hin]; [left | right];
    (split; [exact Hin |]);
    unfold View.dashboard in Hin; cbn -[Nat.ltb] in Hin;
    rewrite cards_of_section in Hin;
    apply in_map_iff in Hin; destruct Hin as (d & <- & Hd);
    apply filter_In in Hd; destruct Hd as [_ Hd];
    destruct d as [v p ? ? ? ? ? t]; cbn in Hd |- *.
  - subst t. repeat split.
  - apply negb_true_iff in Hd. subst t. repeat split.
Qed.

Lemma card_button_does_what_it_says_witness :
  In {| DeviceCard.device := keyboard;
        DeviceCard.onToggleTrust := App.toggleDeviceTrust;
        DeviceCard.isTrusted := true |}
    (View.cards_of (View.trusted_panel (View.dashboard plugged))
     ++ View.cards_of (View.untrusted_panel (View.dashboard plugged)))
  /\ opening
       (DeviceCard.onClick
          (DeviceCard.render
             {| DeviceCard.device := keyboard;
                DeviceCard.onToggleTrust := App.toggleDeviceTrust;
                DeviceCard.isTrusted := true |}))
       plugged
     = [Invoked 0 (remove_trusted_device 0x04F2 0x0112)].
Proof.
  split; [left; reflexivity |].
  destruct (@card_button_does_what_it_says plugged plugged
              {| DeviceCard.device := keyboard;
                 DeviceCard.onToggleTrust := App.toggleDeviceTrust;
                 DeviceCard.isTrusted := true |}) as [H | H].
  - left; reflexivity.
  - apply H.
  - destruct H as (_ & H & _). discriminate H.
Defined.

(** X14: a section shows its empty state exactly when it has no device:
    "No trusted devices" when no device of the state is trusted, "No threats
    detected / All connected devices are trusted" when every device is
    trusted, which includes the state with no device at all. *)
Theorem empty_states (s : Store) :
  match View.trusted_panel (View.dashboard s) with
  | View.Empty props =>
      existsb (fun d => trusted d) (devices s) = false
      /\ props = {| EmptyState.title := "No trusted devices";
                    EmptyState.description :=
                      "Add devices to your trusted list" |}
  | View.Cards cards =>
      existsb (fun d => trusted d) (devices s) = true /\ cards <> []
  end
  /\ match View.untrusted_panel (View.dashboard s) with
     | View.Empty props =>
         forallb (fun d => trusted d) (devices s) = true
         /\ props = {| EmptyState.title := "No threats detected";
                       EmptyState.description :=
                         "All connected devices are trusted" |}
     | View.Cards cards =>
         forallb (fun d => trusted d) (devices s) = false /\ cards <> []
     end.
Proof.
  unfold View.dashboard, View.trustedDeviceList, View.untrustedDeviceList;
    cbn -[Nat.ltb].
  destruct s as [ds ? ? ? ? ?]; cbn -[Nat.ltb]. split.
  - assert (H : filter (fun d => trusted d) ds = []
                <-> existsb (fun d => trusted d) ds = false).
    { induction ds as [| d ds IH]; cbn; [tauto |].
      destruct (trusted d); cbn; [split; discriminate | exact IH]. }
    destruct (filter (fun d => trusted d) ds) as [| d l] eqn:E; cbn.
    + split; [now apply H | reflexivity].
    + split; [| discriminate].
      destruct (existsb (fun d => trusted d) ds); [reflexivity |].
      destruct H as [_ H]. discriminate (H eq_refl).
  - assert (H : filter (fun d => negb (trusted d)) ds = []
                <-> forallb (fun d => trusted d) ds = true).
    { induction ds as [| d ds IH]; cbn; [tauto |].
      destruct (trusted d); cbn; [exact IH | split; discriminate]. }
    destruct (filter (fun d => negb (trusted d)) ds) as [| d l] eqn:E; cbn.
    + split; [now apply H | reflexivity].
    + split; [| discriminate].
      destruct (forallb (fun d => trusted d) ds); [| reflexivity].
      destruct H as [_ H]. discriminate (H eq_refl).
Qed.

Lemma alert_of_error (s : Store) :
  View.alert (View.dashboard s)
  = match error s with
    | Some (String c rest) =>
        Some {| ErrorAlert.message := String c rest;
                ErrorAlert.onDismiss := set (setError None) |}
    | _ => None
    end.
Proof.
  reflexivity.
Qed.

(** X15: a failure of blockAllPorts can stay invisible.  When the rejection
    of one of its two commands converts to the empty string, the error slot
    holds the empty string, which is not absent, and the dashboard shows no
    alert. *)
Theorem blockAllPorts_silent_failure
    (be : Backend) (s : Store) (e : JsValue) (n1 n2 : nat) (rest : list nat) :
  gateway be block_all_usb_ports 0 = Err e
  \/ (is_ok (gateway be block_all_usb_ports 0) = true
      /\ gateway be restart_usb_service 1 = Err e) ->
  js_String e = "" ->
  error (final be blockAllPorts (n1 :: n2 :: rest) s) = Some ""
  /\ View.alert (View.dashboard (final be blockAllPorts (n1 :: n2 :: rest) s))
     = None.
Proof.
  intros H He.
  assert (Herr : error (final be blockAllPorts (n1 :: n2 :: rest) s)
                 = Some "").
  { rewrite <- He. destruct H as [H | [H1 H2]]; crank; try discriminate;
      reflexivity. }
  split; [exact Herr |].
  now rewrite alert_of_error, Herr.
Qed.

Lemma blockAllPorts_silent_failure_witness :
  error
    (final {| gateway := fun c _ => Err (NonError "");
              event_source := fun _ n => Ok (Unlisten n) |}
       blockAllPorts [0; 0] plugged)
  = Some ""
  /\ View.alert
       (View.dashboard
          (final {| gateway := fun c _ => Err (NonError "");
                    event_source := fun _ n => Ok (Unlisten n) |}
             blockAllPorts [0; 0] plugged))
     = None.
Proof.
  apply (@blockAllPorts_silent_failure
           {| gateway := fun c _ => Err (NonError "");
              event_source := fun _ n => Ok (Unlisten n) |}
           plugged (NonError "") 0 0 []).
  - left. reflexivity.
  - reflexivity.
Defined.

(** X16: a failure reported under a heading is always shown: after a
    rejected unblock, autoblock toggle or trust toggle the alert of the
    dashboard carries exactly the message of the error slot, even when the
    rejection itself has no text. *)
Theorem headed_failures_are_shown
    (be : Backend) (s : Store) (e : JsValue) (b : bool)
    (device : UsbDeviceInfo) (n : nat) (rest : list nat) :
  gateway be unblock_usb_port 0 = Err e ->
  gateway be (set_autoblock_mode (negb b)) 0 = Err e ->
  gateway be (trust_command device) 0 = Err e ->
  option_map ErrorAlert.message
    (View.alert (View.dashboard (final be unblockPorts (n :: rest) s)))
  = Some ("Failed to unblock ports: " ++ App.message_of e)
  /\ option_map ErrorAlert.message
       (View.alert
          (View.dashboard (final be (toggleAutoblock b) (n :: rest) s)))
     = Some ("Failed to toggle autoblock: " ++ App.message_of e)
  /\ option_map ErrorAlert.message
       (View.alert
          (View.dashboard
             (final be (toggleDeviceTrust device) (n :: rest) s)))
     = Some ("Failed to update device trust: " ++ App.message_of e).
Proof.
  intros Hu Ha Ht. repeat split.
  - crank. reflexivity.
  - crank. reflexivity.
  - destruct device as [v p ? ? ? ? ? [|]]; cbn in Ht; crank; reflexivity.
Qed.

Lemma headed_failures_are_shown_witness :
  option_map ErrorAlert.message
    (View.alert
       (View.dashboard
          (final {| gateway := fun c _ => Err (NonError "");
                    event_source := fun _ n => Ok (Unlisten n) |}
             unblockPorts [0] plugged)))
  = Some ("Failed to unblock ports: " ++ App.message_of (NonError ""))
  /\ option_map ErrorAlert.message
       (View.alert
          (View.dashboard
             (final {| gateway := fun c _ => Err (NonError "");
                       event_source := fun _ n => Ok (Unlisten n) |}
                (toggleAutoblock true) [0] plugged)))
     = Some ("Failed to toggle autoblock: " ++ App.message_of (NonError ""))
  /\ option_map ErrorAlert.message
       (View.alert
          (View.dashboard
             (final {| gateway := fun c _ => Err (NonError "");
                       event_source := fun _ n => Ok (Unlisten n) |}
                (toggleDeviceTrust mouse) [0] plugged)))
     = Some ("Failed to update device trust: "
             ++ App.message_of (NonError "")).
Proof.
  apply (@headed_failures_are_shown
           {| gateway := fun c _ => Err (NonError "");
              event_source := fun _ n => Ok (Unlisten n) |}
           plugged (NonError "") true mouse 0 []); reflexivity.
Defined.

(** X17: dismissing the alert sends nothing to the backend, clears the
    error slot and nothing else, and the next render has no alert. *)
Theorem dismiss_clears_the_alert
    (be : Backend) (s : Store) (a : ErrorAlert.Props) (sched : list nat) :
  View.alert (View.dashboard s) = Some a ->
  error s = Some (ErrorAlert.message a)
  /\ outcome be (ErrorAlert.onDismiss a) sched s = Settled (Ok tt)
  /\ commands (history be (ErrorAlert.onDismiss a) sched s) = []
  /\ final be (ErrorAlert.onDismiss a) sched s
     = apply_setter (setError None) s
  /\ View.alert (View.dashboard (final be (ErrorAlert.onDismiss a) sched s))
     = None.
Proof.
  rewrite alert_of_error. intros Ha.
  destruct (error s) as [[| c m] |] eqn:E; try discriminate Ha.
  injection Ha as <-. cbn [ErrorAlert.message ErrorAlert.onDismiss].
  split; [reflexivity |].
  destruct sched; crank; repeat split.
Qed.

Lemma dismiss_clears_the_alert_witness :
  View.alert (View.dashboard plugged)
  = Some {| ErrorAlert.message := "Failed to fetch devices: timeout";
            ErrorAlert.onDismiss := set (setError None) |}
  /\ final healthy (set (setError None)) [] plugged
     = apply_setter (setError None) plugged
  /\ View.alert
       (View.dashboard (final healthy (set (setError None)) [] plugged))
     = None.
Proof.
  split; [reflexivity |].
  apply (@dismiss_clears_the_alert healthy plugged
           {| ErrorAlert.message := "Failed to fetch devices: timeout";
              ErrorAlert.onDismiss := set (setError None) |} []).
  reflexivity.
Defined.

(** X18: a device card shows no empty text where the device has none to
    show: the heading is the product name when there is a non-empty one and
    "Unknown Device" otherwise, and the manufacturer and serial rows are
    there exactly when their field is a non-empty string. *)
Theorem card_shows_no_empty_text (props : DeviceCard.Props) :
  DeviceCard.heading (DeviceCard.render props) <> ""
  /\ (product (DeviceCard.device props)
      = Some (DeviceCard.heading (DeviceCard.render props))
      \/ (DeviceCard.heading (DeviceCard.render props) = "Unknown Device"
          /\ truthy (product (DeviceCard.device props)) = false))
  /\ DeviceCard.manufacturer_row (DeviceCard.render props) <> Some ""
  /\ DeviceCard.serial_row (DeviceCard.render props) <> Some ""
  /\ (DeviceCard.manufacturer_row (DeviceCard.render props) = None
      \/ DeviceCard.manufacturer_row (DeviceCard.render props)
         = manufacturer (DeviceCard.device props))
  /\ (DeviceCard.serial_row (DeviceCard.render props) = None
      \/ DeviceCard.serial_row (DeviceCard.render props)
         = serial_number (DeviceCard.device props))
  /\ match product (DeviceCard.device props) with
     | Some (String c rest) =>
         DeviceCard.heading (DeviceCard.render props) = String c rest
     | Some EmptyString | None =>
         DeviceCard.heading (DeviceCard.render props) = "Unknown Device"
     end
  /\ match manufacturer (DeviceCard.device props) with
     | Some (String c rest) =>
         DeviceCard.manufacturer_row (DeviceCard.render props)
         = Some (String c rest)
     | Some EmptyString | None =>
         DeviceCard.manufacturer_row (DeviceCard.render props) = None
     end
  /\ match serial_number (DeviceCard.device props) with
     | Some (String c rest) =>
         DeviceCard.serial_row (DeviceCard.render props)
         = Some (String c rest)
     | Some EmptyString | None =>
         DeviceCard.serial_row (DeviceCard.render props) = None
     end.
Proof.
  destruct props as [[v p m pr sn pn c t] f tr]; cbn.
  repeat split.
  - destruct pr as [[| ? ?] |]; discriminate.
  - destruct pr as [[| ? ?] |]; cbn; auto.
  - destruct m as [[| ? ?] |]; discriminate.
  - destruct sn as [[| ? ?] |]; discriminate.
  - destruct m as [[| ? ?] |]; cbn; auto.
  - destruct sn as [[| ? ?] |]; cbn; auto.
  - destruct pr as [[| ? ?] |]; reflexivity.
  - destruct m as [[| ? ?] |]; reflexivity.
  - destruct sn as [[| ? ?] |]; reflexivity.
Qed.

(** ** The identifiers on a card *)

Lemma string_of_uint_length (d : Hexadecimal.uint) :
  String.length (HexadecimalString.NilEmpty.string_of_uint d)
  = Hexadecimal.nb_digits d.
Proof.
  induction d; cbn; congruence.
Qed.

Lemma filler_zeros (k : nat) (d : Hexadecimal.uint) :
  filler k "0" "" ++ HexadecimalString.NilEmpty.string_of_uint d
  = HexadecimalString.NilEmpty.string_of_uint (Nat.iter k Hexadecimal.D0 d)
  /\ filler k "0" "0" ++ HexadecimalString.NilEmpty.string_of_uint d
     = HexadecimalString.NilEmpty.string_of_uint (Nat.iter k Hexadecimal.D0 d).
Proof.
  induction k as [| k [IH _]]; [split; reflexivity |].
  split; cbn [filler Nat.iter HexadecimalString.NilEmpty.string_of_uint];
    cbn [append]; now rewrite IH.
Qed.

Lemma of_hex_uint_leading_zeros (k : nat) (d : Hexadecimal.uint) :
  Z.of_hex_uint (Nat.iter k Hexadecimal.D0 d) = Z.of_hex_uint d.
Proof.
  induction k as [| k IH]; [reflexivity |]. exact IH.
Qed.

(** The text of a non-negative identifier is the digits of [toString16],
    with zeros before them up to four characters. *)
Lemma padded_hex (v : Z) :
  (0 <= v)%Z ->
  exists d : Hexadecimal.uint,
    d <> Hexadecimal.Nil
    /\ Z.to_hex_int v = Hexadecimal.Pos d
    /\ padStart 4 "0" (toString16 v)
       = HexadecimalString.NilEmpty.string_of_uint
           (Nat.iter (4 - Hexadecimal.nb_digits d) Hexadecimal.D0 d).
Proof.
  intros Hv.
  assert (H : exists d, d <> Hexadecimal.Nil
                        /\ Z.to_hex_int v = Hexadecimal.Pos d).
  { destruct v as [| p | p]; [| | now elim Hv].
    - exists Hexadecimal.zero. split; [discriminate | reflexivity].
    - exists (Pos.to_hex_uint p). split; [| reflexivity].
      apply HexadecimalPos.Unsigned.to_uint_nonnil. }
  destruct H as (d & Hd & E). exists d. repeat split; trivial.
  unfold padStart, toString16. rewrite E.
  cbn [HexadecimalString.NilZero.string_of_int].
  replace (HexadecimalString.NilZero.string_of_uint d)
    with (HexadecimalString.NilEmpty.string_of_uint d)
    by (destruct d; [now elim Hd | reflexivity ..]).
  rewrite string_of_uint_length. apply filler_zeros.
Qed.

Lemma int_of_padded (d : Hexadecimal.uint) :
  d <> Hexadecimal.Nil ->
  HexadecimalString.NilZero.int_of_string
    (HexadecimalString.NilEmpty.string_of_uint d)
  = Some (Hexadecimal.Pos d).
Proof.
  intros Hd.
  assert (U : HexadecimalString.NilEmpty.uint_of_string
                (HexadecimalString.NilEmpty.string_of_uint d) = Some d)
    by apply HexadecimalString.NilEmpty.usu.
  destruct d; [now elim Hd | ..];
    cbn [HexadecimalString.NilEmpty.string_of_uint
         HexadecimalString.NilZero.int_of_string] in *;
    cbn [Ascii.eqb Bool.eqb]; unfold HexadecimalString.NilZero.uint_of_string;
    now rewrite U.
Qed.

Lemma iter_D0_nonnil (k : nat) (d : Hexadecimal.uint) :
  d <> Hexadecimal.Nil -> Nat.iter k Hexadecimal.D0 d <> Hexadecimal.Nil.
Proof.
  destruct k; [trivial | discriminate].
Qed.

Lemma of_hex_uint_acc_lower (d : Hexadecimal.uint) (acc : positive) :
  (Z.pos acc * 16 ^ Z.of_nat (Hexadecimal.nb_digits d)
   <= Z.pos (Pos.of_hex_uint_acc d acc))%Z.
Proof.
  revert acc. induction d; intros acc;
    cbn [Hexadecimal.nb_digits Pos.of_hex_uint_acc];
    [rewrite Z.pow_0_r; lia | ..].
  all: rewrite Nat2Z.inj_succ, Z.pow_succ_r by lia;
    match goal with
    | |- (_ <= Z.pos (Pos.of_hex_uint_acc _ ?a))%Z =>
        pose proof (IHd a) as IH
    end;
    assert (P : (0 < 16 ^ Z.of_nat (Hexadecimal.nb_digits d))%Z)
      by (apply Z.pow_pos_nonneg; lia);
    nia.
Qed.

Lemma of_hex_uint_lower (d : Hexadecimal.uint) :
  Hexadecimal.nzhead d <> Hexadecimal.Nil ->
  (16 ^ Z.of_nat (Nat.pred (Hexadecimal.nb_digits (Hexadecimal.nzhead d)))
   <= Z.of_N (Pos.of_hex_uint d))%Z.
Proof.
  induction d; intros H; cbn [Hexadecimal.nzhead] in *;
    [now elim H | now apply IHd | ..];
    cbn [Hexadecimal.nb_digits Nat.pred Pos.of_hex_uint Z.of_N];
    (etransitivity; [| apply of_hex_uint_acc_lower]);
    (assert (P : (0 < 16 ^ Z.of_nat (Hexadecimal.nb_digits d))%Z)
       by (apply Z.pow_pos_nonneg; lia));
    nia.
Qed.

Lemma of_hex_uint_acc_upper (d : Hexadecimal.uint) (acc : positive) :
  (Z.pos (Pos.of_hex_uint_acc d acc)
   < (Z.pos acc + 1) * 16 ^ Z.of_nat (Hexadecimal.nb_digits d))%Z.
Proof.
  revert acc. induction d; intros acc;
    cbn [Hexadecimal.nb_digits Pos.of_hex_uint_acc];
    [rewrite Z.pow_0_r; lia | ..].
  all: rewrite Nat2Z.inj_succ, Z.pow_succ_r by lia;
    match goal with
    | |- (Z.pos (Pos.of_hex_uint_acc _ ?a) < _)%Z =>
        pose proof (IHd a) as IH
    end;
    assert (P : (0 < 16 ^ Z.of_nat (Hexadecimal.nb_digits d))%Z)
      by (apply Z.pow_pos_nonneg; lia);
    nia.
Qed.

Lemma of_hex_uint_upper (d : Hexadecimal.uint) :
  (Z.of_N (Pos.of_hex_uint d) < 16 ^ Z.of_nat (Hexadecimal.nb_digits d))%Z.
Proof.
  induction d; cbn [Hexadecimal.nb_digits Pos.of_hex_uint Z.of_N];
    [rewrite Z.pow_0_r; lia | ..].
  all: rewrite Nat2Z.inj_succ, Z.pow_succ_r by lia;
    assert (P : (0 < 16 ^ Z.of_nat (Hexadecimal.nb_digits d))%Z)
      by (apply Z.pow_pos_nonneg; lia);
    try match goal with
        | |- (Z.pos (Pos.of_hex_uint_acc _ ?a) < _)%Z =>
            pose proof (of_hex_uint_acc_upper d a)
        end;
    nia.
Qed.

Lemma to_hex_uint_digits (p : positive) (k : nat) :
  (Z.pos p < 16 ^ Z.of_nat k)%Z ->
  Hexadecimal.nb_digits (Pos.to_hex_uint p) <= k.
Proof.
  intros Hp.
  pose proof (HexadecimalPos.Unsigned.of_to p) as Hof.
  pose proof (HexadecimalPos.Unsigned.to_of (Pos.to_hex_uint p)) as Hto.
  rewrite Hof in Hto. cbn [N.to_hex_uint] in Hto.
  assert (Hnz : Hexadecimal.nzhead (Pos.to_hex_uint p) <> Hexadecimal.Nil).
  { intros E. unfold Hexadecimal.unorm in Hto. rewrite E in Hto.
    now apply (HexadecimalPos.Unsigned.to_uint_nonzero p). }
  rewrite (HexadecimalFacts.unorm_nzhead _ Hnz) in Hto.
  pose proof (of_hex_uint_lower (Pos.to_hex_uint p) Hnz) as Hlow.
  rewrite <- Hto, Hof in Hlow. cbn [Z.of_N] in Hlow.
  destruct (Hexadecimal.nb_digits (Pos.to_hex_uint p)) as [| n] eqn:E;
    [lia |].
  cbn [Nat.pred] in Hlow.
  destruct (Nat.le_gt_cases (S n) k) as [Hle | Hgt]; [exact Hle |].
  exfalso.
  assert (16 ^ Z.of_nat k <= 16 ^ Z.of_nat n)%Z
    by (apply Z.pow_le_mono_r; lia).
  lia.
Qed.

(** X19: the text of an identifier determines it: for every non-negative
    vendor or product id, reading the hexadecimal digits after "0x" gives
    the id back, so that devices with different ids never show the same
    text. *)
Theorem identifier_text_reads_back (props : DeviceCard.Props) :
  (0 <= vendor_id (DeviceCard.device props))%Z ->
  (0 <= product_id (DeviceCard.device props))%Z ->
  (String.prefix "0x" (DeviceCard.vendor_text (DeviceCard.render props))
   = true
   /\ parse_hex
        (substring 2
           (String.length (DeviceCard.vendor_text (DeviceCard.render props))
            - 2)
           (DeviceCard.vendor_text (DeviceCard.render props)))
      = Some (vendor_id (DeviceCard.device props)))
  /\ (String.prefix "0x" (DeviceCard.product_text (DeviceCard.render props))
      = true
      /\ parse_hex
           (substring 2
              (String.length
                 (DeviceCard.product_text (DeviceCard.render props))
               - 2)
              (DeviceCard.product_text (DeviceCard.render props)))
         = Some (product_id (DeviceCard.device props))).
Proof.
  assert (G : forall v, (0 <= v)%Z ->
              String.prefix "0x" ("0x" ++ padStart 4 "0" (toString16 v))
              = true
              /\ parse_hex
                   (substring 2
                      (String.length ("0x" ++ padStart 4 "0" (toString16 v))
                       - 2)
                      ("0x" ++ padStart 4 "0" (toString16 v)))
                 = Some v).
  { intros v Hv.
    split; [generalize (padStart 4 "0" (toString16 v)); intros t; cbn;
            now destruct t |].
    destruct (padded_hex Hv) as (d & Hd & E & ->).
    cbn [append String.length substring Nat.sub].
    rewrite Nat.sub_0_r.
    set (t := HexadecimalString.NilEmpty.string_of_uint _).
    assert (St : substring 0 (String.length t) t = t).
    { clear. induction t as [| a t IH]; [reflexivity |].
      cbn. now rewrite IH. }
    rewrite St. unfold t, parse_hex.
    rewrite int_of_padded by now apply iter_D0_nonnil.
    cbn [option_map Z.of_hex_int].
    rewrite of_hex_uint_leading_zeros.
    change (Z.of_hex_uint d) with (Z.of_hex_int (Hexadecimal.Pos d)).
    rewrite <- E. now rewrite HexadecimalZ.of_to. }
  intros Hv Hp. split; [apply (G _ Hv) | apply (G _ Hp)].
Qed.

Lemma identifier_text_reads_back_witness :
  DeviceCard.vendor_text
    (DeviceCard.render
       {| DeviceCard.device := mouse;
          DeviceCard.onToggleTrust := App.toggleDeviceTrust;
          DeviceCard.isTrusted := false |})
  = "0x046d"
  /\ parse_hex
       (substring 2
          (String.length
             (DeviceCard.vendor_text
                (DeviceCard.render
                   {| DeviceCard.device := mouse;
                      DeviceCard.onToggleTrust := App.toggleDeviceTrust;
                      DeviceCard.isTrusted := false |}))
           - 2)
          (DeviceCard.vendor_text
             (DeviceCard.render
                {| DeviceCard.device := mouse;
                   DeviceCard.onToggleTrust := App.toggleDeviceTrust;
                   DeviceCard.isTrusted := false |})))
     = Some 0x046D%Z.
Proof.
  split; [reflexivity |].
  apply (@identifier_text_reads_back
           {| DeviceCard.device := mouse;
              DeviceCard.onToggleTrust := App.toggleDeviceTrust;
              DeviceCard.isTrusted := false |}); discriminate.
Defined.

Lemma hex4_width (v : Z) :
  (0 <= v)%Z ->
  String.length ("0x" ++ padStart 4 "0" (toString16 v)) = 6
  <-> (v < 65536)%Z.
Proof.
  intros Hv.
  destruct (padded_hex Hv) as (d & Hd & E & ->).
  cbn [append String.length]. rewrite string_of_uint_length.
  rewrite HexadecimalFacts.nb_digits_iter_D0.
  assert (Hlen : Hexadecimal.nb_digits d <= 4 <-> (v < 65536)%Z).
  { destruct v as [| p | p]; [| | now elim Hv].
    - injection E as <-. cbn. split; [lia | auto].
    - injection E as <-. split.
      + intros Hn.
        pose proof (of_hex_uint_upper (Pos.to_hex_uint p)) as Hval.
        rewrite HexadecimalPos.Unsigned.of_to in Hval.
        cbn [Z.of_N] in Hval.
        assert (16 ^ Z.of_nat (Hexadecimal.nb_digits (Pos.to_hex_uint p))
                <= 16 ^ Z.of_nat 4)%Z
          by (apply Z.pow_le_mono_r; lia).
        change (16 ^ Z.of_nat 4)%Z with 65536%Z in *. lia.
      + intros Hp. now apply to_hex_uint_digits. }
  split.
  - intros H6. apply Hlen. lia.
  - intros Hp. apply Hlen in Hp. lia.
Qed.

(** X20: an identifier that fits sixteen bits is shown as "0x" and exactly
    four digits; a larger one is shown in full, with more digits, never cut
    to four. *)
Theorem identifier_text_width (props : DeviceCard.Props) :
  (0 <= vendor_id (DeviceCard.device props))%Z ->
  (0 <= product_id (DeviceCard.device props))%Z ->
  (String.length (DeviceCard.vendor_text (DeviceCard.render props)) = 6
   <-> (vendor_id (DeviceCard.device props) < 65536)%Z)
  /\ (String.length (DeviceCard.product_text (DeviceCard.render props)) = 6
      <-> (product_id (DeviceCard.device props) < 65536)%Z).
Proof.
  intros Hv Hp. split; [apply (hex4_width Hv) | apply (hex4_width Hp)].
Qed.

Lemma identifier_text_width_witness :
  (String.length
     (DeviceCard.vendor_text
        (DeviceCard.render
           {| DeviceCard.device := mouse;
              DeviceCard.onToggleTrust := App.toggleDeviceTrust;
              DeviceCard.isTrusted := false |}))
   = 6
   <-> (vendor_id mouse < 65536)%Z)
  /\ (String.length
        (DeviceCard.product_text
           (DeviceCard.render
              {| DeviceCard.device := mouse;
                 DeviceCard.onToggleTrust := App.toggleDeviceTrust;
                 DeviceCard.isTrusted := false |}))
      = 6
      <-> (product_id mouse < 65536)%Z).
Proof.
  apply (@identifier_text_width
           {| DeviceCard.device := mouse;
              DeviceCard.onToggleTrust := App.toggleDeviceTrust;
              DeviceCard.isTrusted := false |}); discriminate.
Defined.

(** ** How the operations compose *)

(** X21: toggling autoblock twice, each time from the render of the state
    the component is in, with both commands accepted: the first call sends
    [enabled] the negation of the flag and leaves the state with the flag
    negated and nothing else changed, the second sends [enabled] the flag
    itself, and the state is then as it was at the start. *)
Theorem toggleAutoblock_twice
    (be be' : Backend) (s : Store) (n m : nat) (rest more : list nat) :
  is_ok (gateway be (set_autoblock_mode (negb (autoblockEnabled s))) 0)
  = true ->
  is_ok (gateway be' (set_autoblock_mode (autoblockEnabled s)) 0) = true ->
  commands (history be (toggleAutoblock (autoblockEnabled s)) (n :: rest) s)
  = [set_autoblock_mode (negb (autoblockEnabled s))]
  /\ final be (toggleAutoblock (autoblockEnabled s)) (n :: rest) s
     = apply_setter (setAutoblockEnabled (negb (autoblockEnabled s))) s
  /\ commands
       (history be'
          (toggleAutoblock
             (autoblockEnabled
                (final be (toggleAutoblock (autoblockEnabled s)) (n :: rest)
                   s)))
          (m :: more)
          (final be (toggleAutoblock (autoblockEnabled s)) (n :: rest) s))
     = [set_autoblock_mode (autoblockEnabled s)]
  /\ final be'
       (toggleAutoblock
          (autoblockEnabled
             (final be (toggleAutoblock (autoblockEnabled s)) (n :: rest) s)))
       (m :: more)
       (final be (toggleAutoblock (autoblockEnabled s)) (n :: rest) s)
     = s.
Proof.
  intros H1 H2.
  assert (C : commands
                (history be (toggleAutoblock (autoblockEnabled s))
                   (n :: rest) s)
              = [set_autoblock_mode (negb (autoblockEnabled s))])
    by (crank; try discriminate; reflexivity).
  assert (E : final be (toggleAutoblock (autoblockEnabled s)) (n :: rest) s
              = apply_setter (setAutoblockEnabled (negb (autoblockEnabled s)))
                  s)
    by (crank; try discriminate; reflexivity).
  split; [exact C |]. split; [exact E |].
  rewrite E. clear C E H1.
  destruct s as [ds ts b er ld st]; cbn in H2 |- *.
  rewrite negb_involutive.
  crank; try discriminate; rewrite ?negb_involutive; repeat split.
Qed.

Lemma toggleAutoblock_twice_witness :
  commands
    (history healthy (toggleAutoblock (autoblockEnabled plugged)) [0] plugged)
  = [set_autoblock_mode (negb (autoblockEnabled plugged))]
  /\ final healthy (toggleAutoblock (autoblockEnabled plugged)) [0] plugged
     = apply_setter (setAutoblockEnabled (negb (autoblockEnabled plugged)))
         plugged
  /\ commands
       (history healthy
          (toggleAutoblock
             (autoblockEnabled
                (final healthy (toggleAutoblock (autoblockEnabled plugged))
                   [0] plugged)))
          [0]
          (final healthy (toggleAutoblock (autoblockEnabled plugged)) [0]
             plugged))
     = [set_autoblock_mode (autoblockEnabled plugged)]
  /\ final healthy
       (toggleAutoblock
          (autoblockEnabled
             (final healthy (toggleAutoblock (autoblockEnabled plugged)) [0]
                plugged)))
       [0]
       (final healthy (toggleAutoblock (autoblockEnabled plugged)) [0]
          plugged)
     = plugged.
Proof.
  apply (@toggleAutoblock_twice healthy healthy plugged 0 0 [] []);
    reflexivity.
Defined.

(** X22: each operation writes only its own cells.  At every point of
    every run, none of the five operations writes the loading flag, so the
    dashboard never falls back to the loading screen; only blockAllPorts
    changes the status; a device refresh, block or unblock leaves the
    trusted pairs and the policy flag as they were, the trust toggle leaves
    the policy flag and the autoblock toggle the devices and the trusted
    pairs. *)
Theorem operations_write_their_own_cells
    (be : Backend) (s : Store) (sched : list nat) (device : UsbDeviceInfo)
    (b : bool) :
  (isLoading (final be refreshDevices sched s) = isLoading s
   /\ blockStatus (final be refreshDevices sched s) = blockStatus s
   /\ trustedDevices (final be refreshDevices sched s) = trustedDevices s
   /\ autoblockEnabled (final be refreshDevices sched s)
      = autoblockEnabled s)
  /\ (isLoading (final be unblockPorts sched s) = isLoading s
      /\ trustedDevices (final be unblockPorts sched s) = trustedDevices s
      /\ autoblockEnabled (final be unblockPorts sched s)
         = autoblockEnabled s)
  /\ (isLoading (final be blockAllPorts sched s) = isLoading s
      /\ trustedDevices (final be blockAllPorts sched s) = trustedDevices s
      /\ autoblockEnabled (final be blockAllPorts sched s)
         = autoblockEnabled s)
  /\ (isLoading (final be (toggleDeviceTrust device) sched s) = isLoading s
      /\ blockStatus (final be (toggleDeviceTrust device) sched s)
         = blockStatus s
      /\ autoblockEnabled (final be (toggleDeviceTrust device) sched s)
         = autoblockEnabled s)
  /\ (isLoading (final be (toggleAutoblock b) sched s) = isLoading s
      /\ blockStatus (final be (toggleAutoblock b) sched s) = blockStatus s
      /\ devices (final be (toggleAutoblock b) sched s) = devices s
      /\ trustedDevices (final be (toggleAutoblock b) sched s)
         = trustedDevices s).
Proof.
  split; [| split; [| split; [| split]]].
  - destruct sched as [| m1 more]; crank_run; repeat split.
  - destruct sched as [| m1 [| m2 more]]; crank_run; repeat split.
  - destruct sched as [| m1 [| m2 [| m3 more]]]; crank_run; repeat split.
  - destruct device as [v p ? ? ? ? ? [|]];
      destruct sched as [| m1 [| m2 [| m3 more]]]; crank_run; repeat split.
  - destruct sched as [| m1 more]; crank_run; repeat split.
Qed.
